(** * furyctl: pre-flight state diff, immutability rules and configuration parsing

    A shallow embedding of

    - [internal/apis/kfd/v1alpha2/eks/create/preflight.go]
      ([PreFlight.Exec], [PreFlight.copyFromTemplate], [PreFlight.CheckStateDiffs]),
    - [internal/configuration/config.go]
      ([Parse], [clusterParser], [bootstrapParser]),

    together with the diff engine, the immutability checker and the rule
    source these consume ([internal/diff], [.../eks/rules]). *)

From Stdlib Require Import OrdersEx.
From stdpp Require Import gmap strings list sorting.

Open Scope string_scope.
Open Scope list_scope.
Set Warnings "-register-all".

(** ** Configuration values *)

(** The tagged variant behind Go's [any] for a decoded YAML document:
    mapping | sequence | string | number | boolean | null.  A mapping is
    kept as the list of its entries; [lookup_key] reads the first entry of
    a key. *)
Inductive Value : Type :=
| VNull
| VBool (b : bool)
| VNum (n : Z)
| VStr (s : string)
| VSeq (items : list Value)
| VMap (entries : list (string * Value)).

(** [map[string]any]: the type of [storedCfg] and [newCfg]. *)
Definition ConfigTree : Type := list (string * Value).

Fixpoint lookup_key (k : string) (m : list (string * Value)) : option Value :=
  match m with
  | [] => None
  | (k', v) :: m' => if String.eqb k' k then Some v else lookup_key k m'
  end.

(** Induction over values that reaches inside sequences and mappings. *)
Section ValueInd.
Variable P : Value → Prop.
Hypothesis Hnull : P VNull.
Hypothesis Hbool : ∀ b, P (VBool b).
Hypothesis Hnum : ∀ n, P (VNum n).
Hypothesis Hstr : ∀ s, P (VStr s).
Hypothesis Hseq : ∀ items, Forall P items → P (VSeq items).
Hypothesis Hmap : ∀ entries, Forall (λ e, P e.2) entries → P (VMap entries).

Fixpoint Value_nested_ind (v : Value) : P v :=
  match v with
  | VNull => Hnull
  | VBool b => Hbool b
  | VNum n => Hnum n
  | VStr s => Hstr s
  | VSeq items =>
      Hseq items
        ((fix all (l : list Value) : Forall P l :=
            match l with
            | [] => @List.Forall_nil _ P
            | x :: l' => @List.Forall_cons _ P x l' (Value_nested_ind x) (all l')
            end) items)
  | VMap entries =>
      Hmap entries
        ((fix all (l : list (string * Value)) : Forall (λ e, P e.2) l :=
            match l with
            | [] => @List.Forall_nil _ _
            | e :: l' =>
                @List.Forall_cons _ (λ e, P e.2) e l' (Value_nested_ind e.2) (all l')
            end) entries)
  end.
End ValueInd.

(** ** Paths and errors *)

(** Modelled from the spec: a Path (section 3), the keys and numeric
    indices that lead from the root to a location; [internal/diff] is not
    among the sources. *)
Inductive Segment : Type :=
| Key (k : string)
| Index (i : nat).

Definition Path : Type := list Segment.

(** Modelled from the spec: a ViolationError (section 3) of
    [internal/diff], the offending path and both values. *)
Record ViolationError : Type := mkViolation {
  vPath : Path;
  vOld : option Value;
  vNew : option Value
}.

(** The [error] values that flow through the two packages.
    [ErrWrap msg e] is [fmt.Errorf(msg + ": %w", e)];
    [ErrAggregate s errs] is [fmt.Errorf("%w: %s", s, errs)]. *)
Inductive GoError : Type :=
| ErrExternal (msg : string)
| ErrNew (msg : string)
| ErrWrap (msg : string) (inner : GoError)
| ErrViolation (v : ViolationError)
| ErrAggregate (sentinel : GoError) (errs : list GoError).

(** A Go result [(T, error)]: [inl e] when the error is not nil. *)
Definition Result (A : Type) : Type := GoError + A.

(** ** Diff engine and immutability checker ([internal/diff]) *)

Module Diff.

(** Modelled from the spec: a DiffRecord (section 3) of [internal/diff],
    [{Path, OldValue (optional), NewValue (optional), Kind}]. *)
Inductive DiffKind : Type := Added | Removed | Changed.

Record DiffRecord : Type := mkDiff {
  diffPath : Path;
  OldValue : option Value;
  NewValue : option Value;
  Kind : DiffKind
}.

Definition added (p : Path) (v : Value) : DiffRecord :=
  mkDiff p None (Some v) Added.
Definition removed (p : Path) (v : Value) : DiffRecord :=
  mkDiff p (Some v) None Removed.
Definition changed (p : Path) (old new : Value) : DiffRecord :=
  mkDiff p (Some old) (Some new) Changed.

(** Lexicographic order on keys. *)
Definition key_leb (a b : string) : bool :=
  match String_as_OT.compare a b with
  | Gt => false
  | _ => true
  end.
Definition key_le (a b : string) : Prop := Is_true (key_leb a b).

(** Modelled from the spec: the leaf comparison of section 4.1, exact
    equality of scalars.  Two values of different kinds are never equal,
    and two mappings or two sequences are compared entry by entry by
    [diff_values], never here. *)
Definition leaf_equal (s i : Value) : bool :=
  match s, i with
  | VNull, VNull => true
  | VBool a, VBool b => Bool.eqb a b
  | VNum a, VNum b => Z.eqb a b
  | VStr a, VStr b => String.eqb a b
  | _, _ => false
  end.

(** Trailing elements present only in [incoming], from index [n] on. *)
Fixpoint added_from (path : Path) (n : nat) (ys : list Value) : list DiffRecord :=
  match ys with
  | [] => []
  | y :: ys' => added (path ++ [Index n]) y :: added_from path (S n) ys'
  end.

Section Engine.
(** Go enumerates the keys of a map in an order that is not specified
    and differs from run to run; [iter] is the order of one run. *)
Variable iter : list string → list string.

(** Modelled from the spec: the union of both key sets (section 4.1), in
    the stable order the spec asks for, the lexicographic one. *)
Definition union_keys (ms mi : list (string * Value)) : list string :=
  merge_sort key_le (remove_dups (iter ms.*1 ++ iter mi.*1)).

(** Modelled from the spec: the lockstep traversal of [GenerateDiff]
    (section 4.1); [internal/diff] is not among the sources.  At a
    mapping the keys of both sides are unioned: a key on one side only
    gives one Added or Removed record for its whole subtree, a key on
    both sides is descended into.  Sequences are compared index by
    index; anything else is a leaf. *)
Fixpoint diff_values (path : Path) (s i : Value) {struct s} : list DiffRecord :=
  match s, i with
  | VMap ms, VMap mi =>
      flat_map
        (λ k,
          (fix in_stored (es : list (string * Value)) : list DiffRecord :=
             match es with
             | [] =>
                 match lookup_key k mi with
                 | Some v' => [added (path ++ [Key k]) v']
                 | None => []
                 end
             | (k', v) :: es' =>
                 if String.eqb k' k then
                   match lookup_key k mi with
                   | Some v' => diff_values (path ++ [Key k]) v v'
                   | None => [removed (path ++ [Key k]) v]
                   end
                 else in_stored es'
             end) ms)
        (union_keys ms mi)
  | VSeq ls, VSeq li =>
      (fix positional (n : nat) (xs ys : list Value) {struct xs} : list DiffRecord :=
         match xs, ys with
         | [], _ => added_from path n ys
         | x :: xs', [] =>
             removed (path ++ [Index n]) x :: positional (S n) xs' []
         | x :: xs', y :: ys' =>
             diff_values (path ++ [Index n]) x y ++ positional (S n) xs' ys'
         end) 0%nat ls li
  | _, _ => if leaf_equal s i then [] else [changed path s i]
  end.

(** Modelled from the spec: [GenerateDiff] of [internal/diff].  Both
    roots are [map[string]any], so the structural error of a root that
    is not a mapping cannot arise. *)
Definition GenerateDiff (stored incoming : ConfigTree) : Result (list DiffRecord) :=
  inr (diff_values [] (VMap stored) (VMap incoming)).

(** The records of one key of a mapping node. *)
Definition diff_key (path : Path) (ms mi : list (string * Value)) (k : string)
  : list DiffRecord :=
  match lookup_key k ms, lookup_key k mi with
  | Some v, Some v' => diff_values (path ++ [Key k]) v v'
  | Some v, None => [removed (path ++ [Key k]) v]
  | None, Some v' => [added (path ++ [Key k]) v']
  | None, None => []
  end.

(** The records of two sequences from index [n] on. *)
Fixpoint diff_seq (path : Path) (n : nat) (xs ys : list Value) : list DiffRecord :=
  match xs, ys with
  | [], _ => added_from path n ys
  | x :: xs', [] => removed (path ++ [Index n]) x :: diff_seq path (S n) xs' []
  | x :: xs', y :: ys' =>
      diff_values (path ++ [Index n]) x y ++ diff_seq path (S n) xs' ys'
  end.
End Engine.

(** *** Immutability checker *)

(** Modelled from the spec: a segment of an immutable path pattern
    (sections 3 and 4.2): a key, a literal index, or the wildcard that
    stands for any index. *)
Inductive PatSegment : Type :=
| PKey (k : string)
| PIndex (i : nat)
| PAnyIndex.

Definition PathPattern : Type := list PatSegment.

Definition segment_matches (p : PatSegment) (s : Segment) : bool :=
  match p, s with
  | PKey k, Key k' => String.eqb k k'
  | PIndex i, Index j => Nat.eqb i j
  | PAnyIndex, Index _ => true
  | _, _ => false
  end.

(** Modelled from the spec: the pattern match of section 4.2, a prefix
    match on the segment sequence: the path is the declared path or lies
    below it. *)
Fixpoint pattern_matches (pat : PathPattern) (path : Path) : bool :=
  match pat, path with
  | [], _ => true
  | _ :: _, [] => false
  | p :: pat', s :: path' => segment_matches p s && pattern_matches pat' path'
  end.

Definition violation_of (d : DiffRecord) : ViolationError :=
  mkViolation (diffPath d) (OldValue d) (NewValue d).

(** Modelled from the spec: [AssertImmutableViolations] of [internal/diff]
    (section 4.2).  Every record is matched against every pattern, each
    match gives one ViolationError, and nothing stops at the first. *)
Definition AssertImmutableViolations
    (diffs : list DiffRecord) (immutablePaths : list PathPattern)
  : list ViolationError :=
  flat_map
    (λ d, map (λ _, violation_of d)
              (filter (λ pat, pattern_matches pat (diffPath d) = true) immutablePaths))
    diffs.

(** What a match means, stated without the matcher. *)
Inductive segment_agrees : PatSegment → Segment → Prop :=
| agrees_key k : segment_agrees (PKey k) (Key k)
| agrees_index i : segment_agrees (PIndex i) (Index i)
| agrees_any i : segment_agrees PAnyIndex (Index i).

(** [path] is the declared path [pat] or one of its descendants. *)
Definition covers (pat : PathPattern) (path : Path) : Prop :=
  ∃ pre rest, path = pre ++ rest ∧ Forall2 segment_agrees pat pre.

End Diff.

(** ** Rule source ([internal/apis/kfd/v1alpha2/eks/rules]) *)

Module Rules.
Import Diff.

(** Modelled from the spec: the ImmutableRuleSet (section 3) held by a
    rule source, category name to the path patterns declared immutable for
    it; the rules package is not among the sources. *)
Record RuleSource : Type := mkRuleSource {
  immutables : gmap string (list PathPattern)
}.

(** Modelled from the spec: [NewRulesBuilder] (section 4.3); the rules
    package is not among the sources.  [read] is the schema file reader
    ([None]: no file at that path) and [parse] the schema parser
    ([None]: malformed); both are external collaborators. *)
Definition NewRulesBuilder
    (read : string → option string)
    (parse : string → option (gmap string (list PathPattern)))
    (distributionPath : string) : Result RuleSource :=
  match read distributionPath with
  | None => inl (ErrExternal "rule schema not found")
  | Some text =>
      match parse text with
      | None => inl (ErrExternal "rule schema malformed")
      | Some rules => inr (mkRuleSource rules)
      end
  end.

(** Modelled from the spec: [RuleSource.GetImmutables] (section 4.3), a
    pure lookup; a category that is not declared has no immutable path. *)
Definition GetImmutables (r : RuleSource) (category : string) : list PathPattern :=
  default [] (immutables r !! category).
End Rules.

(** ** Running Go code: calls made, and how the function ended *)

Inductive Outcome (A : Type) : Type :=
| Ret (a : A)
| Fail (e : GoError)
| Panic (msg : string).
Arguments Ret {A} a.
Arguments Fail {A} e.
Arguments Panic {A} msg.

(** A run of a function: the events it caused, in order, and its outcome.
    [Fail e] is a return with a non-nil [error]. *)
Definition Run (E A : Type) : Type := list E * Outcome A.

Section Run.
Context {E : Type}.

Definition ret {A} (a : A) : Run E A := ([], Ret a).
Definition fail {A} (e : GoError) : Run E A := ([], Fail e).
Definition panic {A} (msg : string) : Run E A := ([], Panic msg).
Definition emit (ev : E) : Run E unit := ([ev], Ret tt).

Definition bind {A B} (c : Run E A) (k : A → Run E B) : Run E B :=
  match c with
  | (t, Ret a) => let '(t', o) := k a in (t ++ t', o)
  | (t, Fail e) => (t, Fail e)
  | (t, Panic m) => (t, Panic m)
  end.

(** A call to a collaborator: [if err != nil { return err }]. *)
Definition call {A} (ev : E) (r : Result A) : Run E A :=
  ([ev], match r with inl e => Fail e | inr a => Ret a end).

(** [if err != nil { return fmt.Errorf(msg + ": %w", err) }]. *)
Definition wrap {A} (msg : string) (c : Run E A) : Run E A :=
  match c with
  | (t, Fail e) => (t, Fail (ErrWrap msg e))
  | _ => c
  end.

(** [defer f()]: [ev] happens when the function returns, whatever the
    outcome. *)
Definition defer {A} (ev : E) (c : Run E A) : Run E A :=
  (c.1 ++ [ev], c.2).
End Run.

#[global] Instance Run_ret {E} : MRet (Run E) := @ret E.
#[global] Instance Run_bind {E} : MBind (Run E) := λ A B k c, bind c k.

Definition trace {E A} (c : Run E A) : list E := c.1.
Definition outcome {E A} (c : Run E A) : Outcome A := c.2.

(** ** Pre-flight phase ([internal/apis/kfd/v1alpha2/eks/create/preflight.go]) *)

Module Create.

Definition errImmutable : GoError := ErrNew "immutable path changed".

Inductive Level : Type := Debug | Info.

Section PreFlight.
(** The values of [internal/diff] and of the rules package that the
    phase only passes along: the changelog of [GenerateDiff], the rules
    builder and the immutable paths of one category. *)
Context {Changelog RulesBuilder Immutables : Type}.

(** Calls that leave the package, and log lines. *)
Inductive Event : Type :=
| Log (l : Level) (msg : string)
| LogDiff (diffs : Changelog)
| CreateFolder
| MkdirTemp
| RemoveAll (dir : string)
| FsSub
| CopyRecursive (dst : string)
| PhaseCopyFromTemplate (prefix source target confPath : string)
| CreateFolderStructure
| TerraformInit
| TerraformState (args : list string)
| KubectlVersion
| GetConfig
| UnmarshalV3 (text : string)
| FromFileV3 (file : string)
| GenerateDiff (stored incoming : ConfigTree)
| NewEKSClusterRulesBuilder (distroPath : string)
| GetImmutables (category : string)
| AssertImmutableViolations (diffs : Changelog) (immutablePaths : Immutables).

(** What the collaborators answer during one run. *)
Record World : Type := mkWorld {
  createFolder : Result unit;
  mkdirTemp : Result string;
  fsSub : Result unit;
  copyRecursive : string → Result unit;
  phaseCopyFromTemplate : string → string → string → string → Result unit;
  createFolderStructure : Result unit;
  terraformInit : Result unit;
  terraformState : list string → Result string;
  kubectlVersion : Result string;
  getConfig : Result string;
  unmarshalV3 : string → Result ConfigTree;
  fromFileV3 : string → Result ConfigTree;
  generateDiff : ConfigTree → ConfigTree → Result Changelog;
  newEKSClusterRulesBuilder : string → Result RulesBuilder;
  getImmutables : RulesBuilder → string → Immutables;
  assertImmutableViolations : Changelog → Immutables → list GoError
}.

(** The fields of [PreFlight] that the phase reads. *)
Record PreFlight : Type := mkPreFlight {
  Path : string;
  distroPath : string;
  furyctlConfPath : string;
  kubeconfig : string;
  dryRun : bool
}.

Variable w : World.
Variable path_Join : string → string → string.

(** [copyFromTemplate].  The terraform backend variables read from
    [furyctlConf] go to the template engine untouched and are left out. *)
Definition copyFromTemplate (p : PreFlight) : Run Event unit :=
  tmpFolder ← wrap "error creating temp folder" (call MkdirTemp (mkdirTemp w));
  defer (RemoveAll tmpFolder)
    (wrap "error getting subfs" (call FsSub (fsSub w));;
     wrap "error copying template files"
       (call (CopyRecursive tmpFolder) (copyRecursive w tmpFolder));;
     let targetTfDir := path_Join (Path p) "terraform" in
     let prefix := "kube" in
     wrap "error generating from template files"
       (call (PhaseCopyFromTemplate prefix tmpFolder targetTfDir (furyctlConfPath p))
          (phaseCopyFromTemplate w prefix tmpFolder targetTfDir (furyctlConfPath p)))).

(** One [errs = append(errs, diffChecker.AssertImmutableViolations(diffs,
    r.GetImmutables(category))...)]. *)
Definition checkCategory (diffs : Changelog) (r : RulesBuilder)
    (category : string) (errs : list GoError) : Run Event (list GoError) :=
  emit (GetImmutables category);;
  let immutablePaths := getImmutables w r category in
  emit (AssertImmutableViolations diffs immutablePaths);;
  mret (errs ++ assertImmutableViolations w diffs immutablePaths).

(** [CheckStateDiffs].  [diff.NewBaseChecker] only stores the two trees;
    they are what [GenerateDiff] is called on. *)
Definition CheckStateDiffs (p : PreFlight) : Run Event unit :=
  let errs : list GoError := [] in
  storedCfgStr ← wrap "error while getting current cluster config"
                   (call GetConfig (getConfig w));
  storedCfg ← wrap "error while unmarshalling config file"
                (call (UnmarshalV3 storedCfgStr) (unmarshalV3 w storedCfgStr));
  newCfg ← wrap "error while reading config file"
             (call (FromFileV3 (furyctlConfPath p)) (fromFileV3 w (furyctlConfPath p)));
  diffs ← wrap "error while diffing configs"
            (call (GenerateDiff storedCfg newCfg) (generateDiff w storedCfg newCfg));
  emit (LogDiff diffs);;
  r ← wrap "error while creating rules builder"
        (call (NewEKSClusterRulesBuilder (distroPath p))
           (newEKSClusterRulesBuilder w (distroPath p)));
  errs ← checkCategory diffs r "infrastructure" errs;
  errs ← checkCategory diffs r "kubernetes" errs;
  errs ← checkCategory diffs r "distribution" errs;
  if (0 <? length errs)%nat
  then fail (ErrAggregate errImmutable errs)
  else mret tt.

Definition stateShowArgs : list string := ["show"; "data.aws_eks_cluster.fury"].

Definition Exec (p : PreFlight) : Run Event unit :=
  emit (Log Info "Running preflight checks");;
  wrap "error creating preflight phase folder" (call CreateFolder (createFolder w));;
  copyFromTemplate p;;
  wrap "error creating preflight phase folder structure"
    (call CreateFolderStructure (createFolderStructure w));;
  wrap "error running terraform init" (call TerraformInit (terraformInit w));;
  emit (TerraformState stateShowArgs);;
  match terraformState w stateShowArgs with
  | inl _ =>
      emit (Log Debug "Cluster does not exist, skipping state checks");;
      emit (Log Info "Preflight checks completed successfully");;
      mret tt
  | inr _ =>
      emit (Log Info "Checking that the cluster is reachable...");;
      wrap "cluster is unreachable, make sure you have access to the cluster"
        (call KubectlVersion (kubectlVersion w));;
      wrap "error checking state diffs" (CheckStateDiffs p);;
      emit (Log Info "Preflight checks completed successfully");;
      mret tt
  end.

(** The violations of one category. *)
Definition violations (diffs : Changelog) (r : RulesBuilder) (category : string)
  : list GoError :=
  assertImmutableViolations w diffs (getImmutables w r category).

(** Everything up to and including [terraform init] went through. *)
Definition initialized (p : PreFlight) : Prop :=
  createFolder w = inr tt ∧ outcome (copyFromTemplate p) = Ret tt
  ∧ createFolderStructure w = inr tt ∧ terraformInit w = inr tt.

(** The events of [Exec] up to the call of [terraform state], when none
    of the steps before it fails. *)
Definition initTrace (p : PreFlight) : list Event :=
  [Log Info "Running preflight checks"; CreateFolder]
  ++ trace (copyFromTemplate p)
  ++ [CreateFolderStructure; TerraformInit; TerraformState stateShowArgs].

(** The same world with another answer to [terraform state]. *)
Definition withTerraformState (r : Result string) : World :=
  mkWorld (createFolder w) (mkdirTemp w) (fsSub w) (copyRecursive w)
    (phaseCopyFromTemplate w) (createFolderStructure w) (terraformInit w)
    (λ _, r) (kubectlVersion w) (getConfig w) (unmarshalV3 w) (fromFileV3 w)
    (generateDiff w) (newEKSClusterRulesBuilder w) (getImmutables w)
    (assertImmutableViolations w).
End PreFlight.

Section Events.
Context {Changelog Immutables : Type}.

Definition isReachabilityCheck (ev : @Event Changelog Immutables) : bool :=
  match ev with KubectlVersion => true | _ => false end.

Definition isDiffCall (ev : @Event Changelog Immutables) : bool :=
  match ev with GenerateDiff _ _ => true | _ => false end.

Definition isCheckerCall (ev : @Event Changelog Immutables) : bool :=
  match ev with AssertImmutableViolations _ _ => true | _ => false end.

(** No reachability check, no diff, no immutability check. *)
Definition skipsStateChecks (t : list (@Event Changelog Immutables)) : Prop :=
  Forall (λ ev, isReachabilityCheck ev = false ∧ isDiffCall ev = false
                ∧ isCheckerCall ev = false) t.

(** No diff and no immutability check. *)
Definition skipsDiffing (t : list (@Event Changelog Immutables)) : Prop :=
  Forall (λ ev, isDiffCall ev = false ∧ isCheckerCall ev = false) t.
End Events.

End Create.

(** ** Configuration files ([internal/configuration/config.go]) *)

Module Configuration.

(** What [yaml.v2] decodes into an [interface{}]: nil, a scalar, a
    [[]interface{}] or a [map[interface{}]interface{}]. *)
Inductive Node : Type :=
| NNil
| NBool (b : bool)
| NInt (n : Z)
| NStr (s : string)
| NSeq (items : list Node)
| NMap (entries : list (Node * Node)).

(** [m[key]] for a string key: the value of the entry, or nil. *)
Fixpoint mapIndex (m : list (Node * Node)) (key : string) : Node :=
  match m with
  | [] => NNil
  | (NStr k, v) :: m' => if String.eqb k key then v else mapIndex m' key
  | _ :: m' => mapIndex m' key
  end.

(** [x == "..."] for an [interface{}] and a string constant. *)
Definition isString (x : Node) (s : string) : bool :=
  match x with
  | NStr s' => String.eqb s' s
  | _ => false
  end.

Record StateConfiguration : Type := mkStateConfiguration {
  Backend : string;
  Config : list (string * string)
}.

Record TerraformExecutor : Type := mkTerraformExecutor {
  ExecutorPath : string;
  Version : string;
  StateConfig : StateConfiguration
}.

Record Metadata : Type := mkMetadata {
  Name : string;
  Labels : list (string * Node)
}.

Inductive Level : Type := Debug | Error.

Inductive Arg : Type :=
| ArgError (e : GoError)
| ArgNode (n : Node)
| ArgString (s : string).

Section Parse.
(** The provisioner specs of [internal/cluster/configuration] and
    [internal/bootstrap/configuration]. *)
Context {AWSSimple Dummy AWS : Type}.

(** The dynamic value of the [Spec interface{}] field. *)
Inductive SpecValue : Type :=
| SpecRaw (n : Node)
| SpecAWSSimple (s : AWSSimple)
| SpecDummy (s : Dummy)
| SpecAWS (s : AWS).

Record Configuration : Type := mkConfiguration {
  Kind : string;
  Meta : Metadata;
  Spec : SpecValue;
  Executor : TerraformExecutor;
  Provisioner : string
}.

Inductive Event : Type :=
| ReadFile (path : string)
| Unmarshal (content : string)
| Marshal (spec : SpecValue)
| Logf (l : Level) (format : string) (args : list Arg).

Record World : Type := mkWorld {
  readFile : string → Result string;
  unmarshalConfiguration : string → Result Configuration;
  marshal : SpecValue → Result string;
  unmarshalAWSSimple : string → Result AWSSimple;
  unmarshalDummy : string → Result Dummy;
  unmarshalAWS : string → Result AWS
}.

Variable w : World.

(** [x.(map[interface{}]interface{})]: the unchecked type assertion. *)
Definition assertMap (x : SpecValue) : Run Event (list (Node * Node)) :=
  match x with
  | SpecRaw (NMap m) => mret m
  | _ => panic "interface conversion: interface {} is not map[interface {}]interface {}"
  end.

(** [x.(string)]. *)
Definition assertString (x : Node) : Run Event string :=
  match x with
  | NStr s => mret s
  | _ => panic "interface conversion: interface {} is not string"
  end.

(** [log.Errorf("error parsing configuration file: %v", err); return err]. *)
Definition logged {A} (c : Run Event A) : Run Event A :=
  match c with
  | (t, Fail e) =>
      (t ++ [Logf Error "error parsing configuration file: %v" [ArgError e]], Fail e)
  | _ => c
  end.

Definition withSpec (config : Configuration) (provisioner : string)
    (spec : SpecValue) : Configuration :=
  mkConfiguration (Kind config) (Meta config) spec (Executor config) provisioner.

Definition clusterParser (config : Configuration) : Run Event Configuration :=
  m ← assertMap (Spec config);
  let provisioner := mapIndex m "provisioner" in
  emit (Logf Debug "provisioner: %v" [ArgNode provisioner]);;
  specBytes ← logged (call (Marshal (Spec config)) (marshal w (Spec config)));
  if isString provisioner "aws-simple" then
    awsSimpleSpec ← logged (call (Unmarshal specBytes) (unmarshalAWSSimple w specBytes));
    name ← assertString provisioner;
    mret (withSpec config name (SpecAWSSimple awsSimpleSpec))
  else
    emit (Logf Error "Error parsing the configuration file. Provisioner not found" []);;
    fail (ErrNew "Cluster provisioner not found").

Definition bootstrapParser (config : Configuration) : Run Event Configuration :=
  m ← assertMap (Spec config);
  let provisioner := mapIndex m "provisioner" in
  emit (Logf Debug "provisioner: %v" [ArgNode provisioner]);;
  specBytes ← logged (call (Marshal (Spec config)) (marshal w (Spec config)));
  if isString provisioner "dummy" then
    dummySpec ← logged (call (Unmarshal specBytes) (unmarshalDummy w specBytes));
    name ← assertString provisioner;
    mret (withSpec config name (SpecDummy dummySpec))
  else if isString provisioner "aws" then
    awsSpec ← logged (call (Unmarshal specBytes) (unmarshalAWS w specBytes));
    name ← assertString provisioner;
    mret (withSpec config name (SpecAWS awsSpec))
  else
    emit (Logf Error "Error parsing the configuration file. Provisioner not found" []);;
    fail (ErrNew "Bootstrap provisioner not found").

Definition Parse (path : string) : Run Event Configuration :=
  content ← logged (call (ReadFile path) (readFile w path));
  baseConfig ← logged (call (Unmarshal content) (unmarshalConfiguration w content));
  if String.eqb (Kind baseConfig) "Cluster" then
    clusterParser baseConfig
  else if String.eqb (Kind baseConfig) "Bootstrap" then
    bootstrapParser baseConfig
  else
    emit (Logf Error "Error parsing the configuration file. Parser not found for %v kind"
            [ArgString (Kind baseConfig)]);;
    fail (ErrNew ("Parser not found for " +:+ Kind baseConfig +:+ " kind")).
End Parse.

End Configuration.

(** ** A cluster and its rules *)

Module Scenario.
Import Diff Rules.

Definition network (cidr : string) : ConfigTree :=
  [("spec", VMap [("network", VMap [("cidr", VStr cidr)])])].

Definition stored : ConfigTree := network "10.0.0.0/16".
Definition incoming : ConfigTree := network "10.1.0.0/16".

Definition spec_network : PathPattern := [PKey "spec"; PKey "network"].
Definition spec_network_cidr : Path := [Key "spec"; Key "network"; Key "cidr"].

Definition cidr_violation : ViolationError :=
  mkViolation spec_network_cidr (Some (VStr "10.0.0.0/16")) (Some (VStr "10.1.0.0/16")).

Definition rules : gmap string (list PathPattern) :=
  {[ "infrastructure" := [spec_network] ]}.

Definition stored_yaml : string := "spec: {network: {cidr: 10.0.0.0/16}}".

Definition path_Join (a b : string) : string := a +:+ "/" +:+ b.

Definition phase : Create.PreFlight :=
  Create.mkPreFlight "/work/preflight" "/distro" "furyctl.yaml" "" false.

(** A world in which every step before [terraform state] goes through,
    the stored configuration is [stored], the file holds [incoming], and
    the diff engine, the rules and the checker are those of the spec. *)
Definition world (state version : Result string) (schema : string → option string)
  : @Create.World (list DiffRecord) RuleSource (list PathPattern) :=
  Create.mkWorld
    (inr tt) (inr "/tmp/furyctl-kube-configs-1") (inr tt) (λ _, inr tt)
    (λ _ _ _ _, inr tt) (inr tt) (inr tt)
    (λ _, state) version
    (inr stored_yaml)
    (λ text, if String.eqb text stored_yaml then inr stored
             else inl (ErrExternal "yaml: unmarshal errors"))
    (λ file, if String.eqb file "furyctl.yaml" then inr incoming
             else inl (ErrExternal "open: no such file or directory"))
    (GenerateDiff id)
    (NewRulesBuilder schema (λ _, Some rules))
    GetImmutables
    (λ diffs pats, ErrViolation <$> AssertImmutableViolations diffs pats).

Definition no_schema : string → option string := λ _, None.
Definition schema_present : string → option string := λ _, Some "immutables".

Definition state_found : Result string := inr "# data.aws_eks_cluster.fury:".
Definition state_missing : Result string :=
  inl (ErrExternal "No instance found for the given address!").
Definition reachable : Result string := inr "Server Version: v1.25".
Definition unreachable : Result string :=
  inl (ErrExternal "Unable to connect to the server").

(** A [furyctl.yaml] of kind Cluster that has no [spec]. *)
Definition cluster_without_spec : @Configuration.Configuration unit unit unit :=
  Configuration.mkConfiguration "Cluster" (Configuration.mkMetadata "demo" [])
    (Configuration.SpecRaw Configuration.NNil)
    (Configuration.mkTerraformExecutor "" "" (Configuration.mkStateConfiguration "" []))
    "".

Definition config_world : @Configuration.World unit unit unit :=
  Configuration.mkWorld
    (λ _, inr "kind: Cluster") (λ _, inr cluster_without_spec)
    (λ _, inr "null") (λ _, inr tt) (λ _, inr tt) (λ _, inr tt).

(** A [furyctl.yaml] of the given kind whose [spec] names a provisioner. *)
Definition with_provisioner (kind provisioner : string)
  : @Configuration.Configuration unit unit unit :=
  Configuration.mkConfiguration kind (Configuration.mkMetadata "demo" [])
    (Configuration.SpecRaw
       (Configuration.NMap [(Configuration.NStr "provisioner",
                             Configuration.NStr provisioner)]))
    (Configuration.mkTerraformExecutor "" "" (Configuration.mkStateConfiguration "" []))
    "".

Definition config_world_of (config : @Configuration.Configuration unit unit unit)
  : @Configuration.World unit unit unit :=
  Configuration.mkWorld
    (λ _, inr "furyctl.yaml contents") (λ _, inr config)
    (λ _, inr "provisioner: ...") (λ _, inr tt) (λ _, inr tt) (λ _, inr tt).

(** [stored] with the optional key [spec.tags.env] added. *)
Definition tagged : ConfigTree :=
  [("spec", VMap [("tags", VMap [("env", VStr "prod")]);
                  ("network", VMap [("cidr", VStr "10.0.0.0/16")])])].
End Scenario.

(** ** The pre-flight phase, its steps and its construction *)

Module PreFlightSteps.
Import Create.

Section Steps.
Context {Changelog Immutables : Type}.

(** The calls [copyFromTemplate] makes. *)
Definition isTemplateCall (ev : @Event Changelog Immutables) : bool :=
  match ev with
  | MkdirTemp | RemoveAll _ | FsSub | CopyRecursive _
  | PhaseCopyFromTemplate _ _ _ _ => true
  | _ => false
  end.

(** The calls and the log line [CheckStateDiffs] makes. *)
Definition isStateDiffCall (ev : @Event Changelog Immutables) : bool :=
  match ev with
  | GetConfig | UnmarshalV3 _ | FromFileV3 _ | GenerateDiff _ _ | LogDiff _
  | NewEKSClusterRulesBuilder _ | GetImmutables _
  | AssertImmutableViolations _ _ => true
  | _ => false
  end.

Definition isRemoveAll (ev : @Event Changelog Immutables) : bool :=
  match ev with RemoveAll _ => true | _ => false end.

(** The last line [Exec] logs before it returns nil. *)
Definition completed : @Event Changelog Immutables :=
  Log Info "Preflight checks completed successfully".
End Steps.

(** The messages [CheckStateDiffs] wraps a failed load or diff in. *)
Definition loadMessages : list string :=
  ["error while getting current cluster config";
   "error while unmarshalling config file";
   "error while reading config file";
   "error while diffing configs";
   "error while creating rules builder"].

(** The messages [copyFromTemplate] wraps a failed step in. *)
Definition templateMessages : list string :=
  ["error creating temp folder"; "error getting subfs";
   "error copying template files"; "error generating from template files"].

(** The messages an error returned by [Exec] starts with. *)
Definition execMessages : list string :=
  ["error creating preflight phase folder"]
  ++ templateMessages
  ++ ["error creating preflight phase folder structure";
      "error running terraform init";
      "cluster is unreachable, make sure you have access to the cluster";
      "error checking state diffs"].

(** The fields of [cluster.CreatorPaths] that [NewPreFlight] reads. *)
Record CreatorPaths : Type := mkCreatorPaths {
  WorkDir : string;
  BinPath : string;
  DistroPath : string;
  ConfigPath : string;
  Kubeconfig : string
}.

(** The fields of [cluster.OperationPhase] that [NewPreFlight] reads. *)
Record OperationPhase : Type := mkOperationPhase {
  PhasePath : string;
  TerraformPath : string;
  TerraformPlanPath : string;
  TerraformLogsPath : string;
  TerraformOutputsPath : string;
  KubectlPath : string
}.

(** [terraform.Paths]. *)
Record TerraformPaths : Type := mkTerraformPaths {
  tfLogs : string;
  tfOutputs : string;
  tfWorkDir : string;
  tfPlan : string;
  tfTerraform : string
}.

(** [kubectl.Paths]. *)
Record KubectlPaths : Type := mkKubectlPaths {
  kKubectl : string;
  kWorkDir : string;
  kKubeconfig : string
}.

(** What [NewPreFlight] builds: the phase, the fields kept in [PreFlight],
    and the arguments its two runners are made with. *)
Record Built : Type := mkBuilt {
  phase : OperationPhase;
  preFlight : PreFlight;
  tfRunner : TerraformPaths;
  kubeRunner : KubectlPaths;
  kubeRunnerFlags : bool * bool * bool
}.

Section NewPreFlight.
(** [kfdManifest.Tools], the constant [cluster.OperationPhasePreFlight],
    [path.Join] and [cluster.NewOperationPhase]. *)
Context {Tools : Type}.
Variable OperationPhasePreFlight : string.
Variable path_Join : string → string → string.
Variable newOperationPhase : string → Tools → string → Result OperationPhase.

Definition NewPreFlight (tools : Tools) (paths : CreatorPaths)
    (dryRun : bool) (kubeconfig : string) : Result Built :=
  let preFlightDir := path_Join (WorkDir paths) OperationPhasePreFlight in
  match newOperationPhase preFlightDir tools (BinPath paths) with
  | inl err => inl (ErrWrap "error creating preflight phase" err)
  | inr phase =>
      inr (mkBuilt phase
             (mkPreFlight (PhasePath phase) (DistroPath paths) (ConfigPath paths)
                kubeconfig dryRun)
             (mkTerraformPaths (TerraformLogsPath phase) (TerraformOutputsPath phase)
                (path_Join (PhasePath phase) "terraform")
                (TerraformPlanPath phase) (TerraformPath phase))
             (mkKubectlPaths (KubectlPath phase) (PhasePath phase) (Kubeconfig paths))
             (true, true, false))
  end.
End NewPreFlight.

End PreFlightSteps.


(** ** What [Parse] logs *)

Module ParseSteps.
Import Configuration.

Section Logs.
Context {AWSSimple Dummy AWS : Type}.

Definition isErrorLog (ev : @Event AWSSimple Dummy AWS) : bool :=
  match ev with Logf Error _ _ => true | _ => false end.
End Logs.

End ParseSteps.

(** ** The bootstrap commands ([cmd/bootstrap.go]) *)

Module Cmd.

(** [project.Project], of which the commands set [Path]. *)
Record Project : Type := mkProject {
  ProjectPath : string
}.

(** [terraform.Options]. *)
Record TerraformOptions : Type := mkTerraformOptions {
  GitHubToken : string;
  WorkingDir : string;
  DebugMode : bool
}.

(** The flags of the three commands, and the package variable [debug]. *)
Record Flags : Type := mkFlags {
  bConfigFilePath : string;
  bWorkingDir : string;
  bGitHubToken : string;
  bDryRun : bool;
  debug : bool
}.

Inductive Level : Type := Debug | Error.

Section Commands.
(** The provisioner specs of a configuration, [bootstrap.Bootstrap] and the
    spinner [s]. *)
Context {AWSSimple Dummy AWS Bootstrap Spinner : Type}.

Definition Config : Type := @Configuration.Configuration AWSSimple Dummy AWS.

(** [bootstrap.Options]. *)
Record Options : Type := mkOptions {
  Spin : Spinner;
  OptProject : Project;
  ProvisionerConfiguration : Config;
  TerraformOpts : TerraformOptions
}.

(** The package variables [cfg], [prj] and [boot] once [bPre] has returned
    nil. *)
Record Session : Type := mkSession {
  cfg : Config;
  prj : Project;
  boot : Bootstrap
}.

Inductive Event : Type :=
| SignalNotify
| HandleStopSignal (command : string)
| Log (l : Level) (format : string) (args : list GoError)
| ParseConfig (path kind : string)
| Getwd
| BootstrapNew (opts : Options)
| ProjectCheck (project : Project)
| BootInit (b : Bootstrap)
| BootUpdate (b : Bootstrap) (dryRun : bool)
| BootDestroy (b : Bootstrap)
| TrackBootstrapInit (token : string) (success : bool) (provisioner : string)
| TrackBootstrapUpdate (token : string) (success : bool) (provisioner : string)
    (dryRun : bool)
| TrackBootstrapDestroy (token : string) (success : bool) (provisioner : string).

(** What the collaborators answer during one run.  [parseConfig] is the
    function of this package that parses the file and, when it returns nil,
    leaves the configuration in [cfg]; [errorText] is [err.Error()]. *)
Record World : Type := mkWorld {
  parseConfig : string → string → Result Config;
  getwd : Result string;
  bootstrapNew : Options → Result Bootstrap;
  projectCheck : Project → Result unit;
  bootInit : Bootstrap → Result unit;
  bootUpdate : Bootstrap → bool → Result unit;
  bootDestroy : Bootstrap → Result unit;
  errorText : GoError → string
}.

Variable w : World.
Variable s : Spinner.

(** [if err != nil { log.Errorf(format, err); return err }]. *)
Definition logged {A} (format : string) (c : Run Event A) : Run Event A :=
  match c with
  | (t, Fail e) => (t ++ [Log Error format [e]], Fail e)
  | _ => c
  end.

Definition bPre (f : Flags) : Run Event Session :=
  emit SignalNotify;;
  emit (HandleStopSignal "bootstrap");;
  emit (Log Debug "passing pre-flight checks" []);;
  cfg ← logged "error parsing configuration file: %v"
          (call (ParseConfig (bConfigFilePath f) "Bootstrap")
             (parseConfig w (bConfigFilePath f) "Bootstrap"));
  wd ← call Getwd (getwd w);
  let workingDirFullPath := wd +:+ "/" +:+ bWorkingDir f in
  emit (Log Debug "pre-flight checks ok!" []);;
  let prj := mkProject workingDirFullPath in
  let bootstrapOpts :=
    mkOptions s prj cfg
      (mkTerraformOptions (bGitHubToken f) workingDirFullPath (debug f)) in
  boot ← logged "the bootstrap provisioner can not be initialized: %v"
           (call (BootstrapNew bootstrapOpts) (bootstrapNew w bootstrapOpts));
  mret (mkSession cfg prj boot).

(** [RunE] of [bootstrapInitCmd]. *)
Definition bootstrapInitRunE (f : Flags) (g : Session) : Run Event unit :=
  emit (ProjectCheck (prj g));;
  match projectCheck w (prj g) with
  | inr _ =>
      fail (ErrNew ("the project " +:+ bWorkingDir f
                    +:+ " seems to be already created. Choose another working directory"))
  | inl _ =>
      emit (BootInit (boot g));;
      match bootInit w (boot g) with
      | inl err =>
          emit (TrackBootstrapInit (bGitHubToken f) false
                  (Configuration.Provisioner (cfg g)));;
          fail err
      | inr _ =>
          emit (TrackBootstrapInit (bGitHubToken f) true
                  (Configuration.Provisioner (cfg g)));;
          mret tt
      end
  end.

(** [RunE] of [bootstrapUpdateCmd]. *)
Definition bootstrapUpdateRunE (f : Flags) (g : Session) : Run Event unit :=
  emit (ProjectCheck (prj g));;
  match projectCheck w (prj g) with
  | inl err =>
      fail (ErrNew ("the project " +:+ bWorkingDir f
                    +:+ " has to be created. Execute bootstrap init before bootstrap update. "
                    +:+ errorText w err))
  | inr _ =>
      emit (BootUpdate (boot g) (bDryRun f));;
      match bootUpdate w (boot g) (bDryRun f) with
      | inl err =>
          emit (TrackBootstrapUpdate (bGitHubToken f) false
                  (Configuration.Provisioner (cfg g)) (bDryRun f));;
          fail err
      | inr _ =>
          emit (TrackBootstrapUpdate (bGitHubToken f) true
                  (Configuration.Provisioner (cfg g)) (bDryRun f));;
          mret tt
      end
  end.

(** [RunE] of [bootstrapDestroyCmd]. *)
Definition bootstrapDestroyRunE (f : Flags) (g : Session) : Run Event unit :=
  emit (ProjectCheck (prj g));;
  match projectCheck w (prj g) with
  | inl err =>
      fail (ErrNew ("the project " +:+ bWorkingDir f
                    +:+ " has to be created. Execute bootstrap init before cluster destroy. "
                    +:+ errorText w err))
  | inr _ =>
      emit (BootDestroy (boot g));;
      match bootDestroy w (boot g) with
      | inl err =>
          emit (TrackBootstrapDestroy (bGitHubToken f) false
                  (Configuration.Provisioner (cfg g)));;
          fail err
      | inr _ =>
          emit (TrackBootstrapDestroy (bGitHubToken f) true
                  (Configuration.Provisioner (cfg g)));;
          mret tt
      end
  end.

(** A command as cobra executes it: [PreRunE], and [RunE] only when
    [PreRunE] returned nil. *)
Definition execute (f : Flags) (runE : Flags → Session → Run Event unit)
  : Run Event unit :=
  g ← bPre f; runE f g.

(** The calls that act on the project. *)
Definition isAction (ev : Event) : bool :=
  match ev with
  | BootInit _ | BootUpdate _ _ | BootDestroy _ => true
  | _ => false
  end.

(** The calls to analytics. *)
Definition isTracking (ev : Event) : bool :=
  match ev with
  | TrackBootstrapInit _ _ _ | TrackBootstrapUpdate _ _ _ _
  | TrackBootstrapDestroy _ _ _ => true
  | _ => false
  end.

(** The success flag of a call to analytics. *)
Definition tracked (ev : Event) : option bool :=
  match ev with
  | TrackBootstrapInit _ ok _ | TrackBootstrapUpdate _ ok _ _
  | TrackBootstrapDestroy _ ok _ => Some ok
  | _ => None
  end.
End Commands.

End Cmd.

(** ** Worlds to run the steps in *)

Module Examples.
Import Create PreFlightSteps.

Definition base := Scenario.world Scenario.state_found Scenario.reachable
                     Scenario.schema_present.

(** [base], with the given answers to the three steps that follow the
    creation of the temp folder. *)
Definition template_world (sub copy gen : Result unit) :=
  mkWorld (createFolder base) (mkdirTemp base) sub (λ _, copy) (λ _ _ _ _, gen)
    (createFolderStructure base) (terraformInit base) (terraformState base)
    (kubectlVersion base) (getConfig base) (unmarshalV3 base) (fromFileV3 base)
    (generateDiff base) (newEKSClusterRulesBuilder base) (getImmutables base)
    (assertImmutableViolations base).

(** [base], with a diff engine that fails. *)
Definition diff_error_world :=
  mkWorld (createFolder base) (mkdirTemp base) (fsSub base) (copyRecursive base)
    (phaseCopyFromTemplate base)
    (createFolderStructure base) (terraformInit base) (terraformState base)
    (kubectlVersion base) (getConfig base) (unmarshalV3 base) (fromFileV3 base)
    (λ _ _, inl (ErrExternal "type mismatch")) (newEKSClusterRulesBuilder base)
    (getImmutables base) (assertImmutableViolations base).

Definition creator_paths : CreatorPaths :=
  mkCreatorPaths "/work" "/work/bin" "/distro" "furyctl.yaml" "/work/kubeconfig".

(** An operation phase laid out under its directory. *)
Definition newOperationPhase (dir : string) (tools : unit) (bin : string)
  : Result OperationPhase :=
  inr (mkOperationPhase dir (bin +:+ "/terraform") (dir +:+ "/terraform/plan")
         (dir +:+ "/terraform/logs") (dir +:+ "/terraform/outputs")
         (bin +:+ "/kubectl")).

(** A configuration of the given kind whose spec is a mapping with no
    [provisioner] key. *)
Definition without_provisioner (kind : string)
  : @Configuration.Configuration unit unit unit :=
  Configuration.mkConfiguration kind (Configuration.mkMetadata "demo" [])
    (Configuration.SpecRaw
       (Configuration.NMap [(Configuration.NStr "region",
                             Configuration.NStr "eu-west-1")]))
    (Configuration.mkTerraformExecutor "" "" (Configuration.mkStateConfiguration "" []))
    "".

(** A configuration of a kind that has no parser, and no spec. *)
Definition deployment_without_spec : @Configuration.Configuration unit unit unit :=
  Configuration.mkConfiguration "Deployment" (Configuration.mkMetadata "demo" [])
    (Configuration.SpecRaw Configuration.NNil)
    (Configuration.mkTerraformExecutor "" "" (Configuration.mkStateConfiguration "" []))
    "".

(** The file decodes to [config], and its spec cannot be marshalled. *)
Definition marshal_error_world (config : @Configuration.Configuration unit unit unit)
  : @Configuration.World unit unit unit :=
  Configuration.mkWorld
    (λ _, inr "furyctl.yaml contents") (λ _, inr config)
    (λ _, inl (ErrExternal "yaml: cannot marshal")) (λ _, inr tt) (λ _, inr tt)
    (λ _, inr tt).

Definition flags : Cmd.Flags := Cmd.mkFlags "bootstrap.yml" "./bootstrap" "" false false.

(** The configuration parses, the current directory is [/home/user], the
    bootstrap is made, and the project check and the action answer as
    given. *)
Definition cmd_world (check action : Result unit)
  : @Cmd.World unit unit unit string unit :=
  Cmd.mkWorld
    (λ _ kind, inr (Scenario.with_provisioner kind "aws"))
    (inr "/home/user") (λ _, inr "bootstrap")
    (λ _, check) (λ _, action) (λ _ _, action) (λ _, action)
    (λ _, "stat: no such file or directory").

Definition session : @Cmd.Session unit unit unit string :=
  Cmd.mkSession (Scenario.with_provisioner "Bootstrap" "aws")
    (Cmd.mkProject "/home/user/./bootstrap") "bootstrap".
End Examples.

(** * Properties *)

Lemma lookup_key_Forall (Q : string * Value → Prop) k m v :
  Forall Q m → lookup_key k m = Some v → ∃ k', Q (k', v).
Proof.
  induction 1 as [|[k' v'] m' Hv _ IH]; simpl; [done|].
  destruct (String.eqb k' k); [intros [= <-]; by exists k'|exact IH].
Qed.

Module DiffFacts.
Import Diff.

(** *** Unfolding the traversal *)

Lemma diff_values_map iter path ms mi :
  diff_values iter path (VMap ms) (VMap mi)
  = flat_map (diff_key iter path ms mi) (union_keys iter ms mi).
Proof.
  simpl. apply flat_map_ext. intros k. unfold diff_key.
  induction ms as [|[k' v] ms IH]; simpl.
  - reflexivity.
  - destruct (String.eqb k' k); [reflexivity|exact IH].
Qed.

Lemma diff_values_seq iter path ls li :
  diff_values iter path (VSeq ls) (VSeq li) = diff_seq iter path 0 ls li.
Proof.
  simpl. generalize 0%nat. revert li.
  induction ls as [|x ls IH]; intros li n; [reflexivity|].
  destruct li as [|y li]; simpl; by rewrite IH.
Qed.

(** *** The key order is a total order *)

Lemma key_le_spec a b : key_le a b ↔ a = b ∨ String_as_OT.lt a b.
Proof.
  unfold key_le, key_leb.
  destruct (String_as_OT.compare_spec a b) as [Heq|Hlt|Hgt]; simpl.
  - tauto.
  - tauto.
  - split; [done|]. intros [->|Hlt].
    + by apply (irreflexivity String_as_OT.lt b).
    + apply (irreflexivity String_as_OT.lt a). by transitivity b.
Qed.

#[local] Instance key_le_total : Total key_le.
Proof.
  intros a b. rewrite !key_le_spec.
  destruct (String_as_OT.compare_spec a b); auto.
Qed.

#[local] Instance key_le_trans : Transitive key_le.
Proof.
  intros a b c. rewrite !key_le_spec. intros [->|Hab] [->|Hbc]; auto.
  right. by transitivity b.
Qed.

#[local] Instance key_le_antisymm : AntiSymm (=) key_le.
Proof.
  intros a b. rewrite !key_le_spec. intros [->|Hab] [Heq|Hba]; auto.
  exfalso. apply (irreflexivity String_as_OT.lt a). by transitivity b.
Qed.

Lemma union_keys_sorted iter ms mi : StronglySorted key_le (union_keys iter ms mi).
Proof. apply StronglySorted_merge_sort; apply _. Qed.

(** *** The order of enumeration does not show in the output *)

Section IterationOrder.
Variables iter1 iter2 : list string → list string.
Hypothesis iter1_perm : ∀ l, iter1 l ≡ₚ l.
Hypothesis iter2_perm : ∀ l, iter2 l ≡ₚ l.

Lemma union_keys_iter ms mi : union_keys iter1 ms mi = union_keys iter2 ms mi.
Proof.
  apply (StronglySorted_unique key_le); try apply union_keys_sorted.
  unfold union_keys. rewrite !merge_sort_Permutation.
  apply NoDup_Permutation; try apply NoDup_remove_dups.
  intros k. rewrite !elem_of_remove_dups.
  by rewrite !iter1_perm, !iter2_perm.
Qed.

Lemma diff_values_iter s :
  ∀ path i, diff_values iter1 path s i = diff_values iter2 path s i.
Proof.
  induction s as [| | | |ls IH|ms IH] using Value_nested_ind;
    intros path i; try reflexivity.
  - destruct i as [| | | |li|]; try reflexivity.
    rewrite !diff_values_seq. generalize 0%nat. revert li.
    induction IH as [|x ls Hx _ IHls]; intros li n; [reflexivity|].
    destruct li as [|y li]; simpl.
    + f_equal. apply IHls.
    + f_equal; [apply Hx|apply IHls].
  - destruct i as [| | | | |mi]; try reflexivity.
    rewrite !diff_values_map, union_keys_iter.
    apply flat_map_ext. intros k. unfold diff_key.
    destruct (lookup_key k ms) as [v|] eqn:Hk; [|reflexivity].
    destruct (lookup_key k mi) as [v'|]; [|reflexivity].
    destruct (lookup_key_Forall _ _ _ _ IH Hk) as [k' Hv]. apply Hv.
Qed.
End IterationOrder.

(** *** A tree does not differ from itself *)

Lemma diff_values_same iter X : ∀ path, diff_values iter path X X = [].
Proof.
  induction X as [|b|n|s|ls IH|ms IH] using Value_nested_ind; intros path.
  - reflexivity.
  - simpl. by destruct b.
  - simpl. by rewrite Z.eqb_refl.
  - simpl. by rewrite String.eqb_refl.
  - rewrite diff_values_seq. generalize 0%nat.
    induction IH as [|x ls Hx _ IHls]; intros n; [reflexivity|].
    simpl. by rewrite Hx, IHls.
  - rewrite diff_values_map.
    induction (union_keys iter ms ms) as [|k ks IHks]; [reflexivity|].
    simpl. rewrite IHks, app_nil_r. unfold diff_key.
    destruct (lookup_key k ms) as [v|] eqn:Hk; [|reflexivity].
    destruct (lookup_key_Forall _ _ _ _ IH Hk) as [k' Hv]. apply Hv.
Qed.

Lemma segment_matches_agrees p s :
  segment_matches p s = true ↔ segment_agrees p s.
Proof.
  split.
  - destruct p, s; simpl; try done.
    + intros ->%String.eqb_eq. constructor.
    + intros ->%Nat.eqb_eq. constructor.
    + constructor.
  - destruct 1; simpl; [apply String.eqb_refl|apply Nat.eqb_refl|done].
Qed.

Lemma pattern_matches_covers pat path :
  pattern_matches pat path = true ↔ covers pat path.
Proof.
  revert path. induction pat as [|p pat IH]; intros path; simpl.
  - split; [|done]. intros _. exists [], path. split; [done|constructor].
  - destruct path as [|s path].
    + split; [done|]. intros (pre & rest & Hp & Hall).
      inversion Hall; subst. discriminate.
    + rewrite andb_true_iff, segment_matches_agrees, IH. split.
      * intros [Hs (pre & rest & -> & Hall)].
        exists (s :: pre), rest. split; [done|by constructor].
      * intros (pre & rest & Hp & Hall).
        inversion Hall as [|? s' ? pre' Hs Hall']; subst.
        injection Hp as -> ->. split; [done|]. by exists pre', rest.
Qed.

Lemma elem_of_AssertImmutableViolations diffs pats v :
  v ∈ AssertImmutableViolations diffs pats
  ↔ ∃ d pat, d ∈ diffs ∧ pat ∈ pats ∧ covers pat (diffPath d) ∧ v = violation_of d.
Proof.
  unfold AssertImmutableViolations. rewrite list_elem_of_In, in_flat_map. split.
  - intros (d & Hd & Hv). apply list_elem_of_In, list_elem_of_fmap in Hv.
    destruct Hv as (pat & -> & Hpat). apply list_elem_of_filter in Hpat.
    destruct Hpat as [Hm Hpat]. exists d, pat.
    by rewrite <-pattern_matches_covers, list_elem_of_In.
  - intros (d & pat & Hd & Hpat & Hcov & ->). exists d.
    split; [by apply list_elem_of_In|].
    apply list_elem_of_In, list_elem_of_fmap. exists pat. split; [done|].
    apply list_elem_of_filter. by rewrite pattern_matches_covers.
Qed.

Lemma AssertImmutableViolations_nil pats : AssertImmutableViolations [] pats = [].
Proof. reflexivity. Qed.

Lemma AssertImmutableViolations_no_patterns diffs :
  AssertImmutableViolations diffs [] = [].
Proof. induction diffs as [|d diffs IH]; [reflexivity|exact IH]. Qed.

(** *** The engine on small trees *)

Example GenerateDiff_changed_cidr :
  GenerateDiff id Scenario.stored Scenario.incoming
  = inr [changed Scenario.spec_network_cidr (VStr "10.0.0.0/16") (VStr "10.1.0.0/16")].
Proof. vm_compute. reflexivity. Qed.

Example GenerateDiff_added_key :
  GenerateDiff id Scenario.stored Scenario.tagged
  = inr [added [Key "spec"; Key "tags"] (VMap [("env", VStr "prod")])]
  ∧ AssertImmutableViolations
      [added [Key "spec"; Key "tags"] (VMap [("env", VStr "prod")])]
      [Scenario.spec_network] = [].
Proof. split; vm_compute; reflexivity. Qed.

Example GenerateDiff_removed_key :
  GenerateDiff id Scenario.tagged Scenario.stored
  = inr [removed [Key "spec"; Key "tags"] (VMap [("env", VStr "prod")])].
Proof. vm_compute. reflexivity. Qed.

Example GenerateDiff_keys_in_order :
  GenerateDiff reverse
    [("b", VNum 1); ("a", VSeq [VStr "x"; VStr "y"]); ("c", VNull)]
    [("c", VBool true); ("a", VSeq [VStr "x"; VStr "z"; VStr "w"])]
  = inr [changed [Key "a"; Index 1] (VStr "y") (VStr "z");
         added [Key "a"; Index 2] (VStr "w");
         removed [Key "b"] (VNum 1);
         changed [Key "c"] VNull (VBool true)].
Proof. vm_compute. reflexivity. Qed.

Example pattern_matches_wildcard :
  pattern_matches [PKey "spec"; PKey "nodes"; PAnyIndex]
    [Key "spec"; Key "nodes"; Index 3; Key "size"] = true
  ∧ pattern_matches [PKey "spec"; PKey "nodes"; PIndex 0]
      [Key "spec"; Key "nodes"; Index 3; Key "size"] = false
  ∧ pattern_matches [PKey "spec"; PKey "network"] [Key "spec"] = false.
Proof. repeat split. Qed.

(** *** The claims on the diff engine and the checker *)

(** C6 (idempotence).  For every configuration tree [X], whatever the
    order in which the run enumerates map keys, [GenerateDiff X X] succeeds
    with the empty sequence of records. *)
Theorem GenerateDiff_idempotent iter (X : ConfigTree) :
  GenerateDiff iter X X = inr [].
Proof. unfold GenerateDiff. by rewrite diff_values_same. Qed.

(** C7 (determinism).  Two runs may enumerate the keys of every map in
    different orders; on the same two trees they still return the same
    records in the same order, because at each mapping the keys are visited
    in one order, the lexicographic one. *)
Theorem GenerateDiff_deterministic iter1 iter2 (stored incoming : ConfigTree) :
  (∀ l, iter1 l ≡ₚ l) →
  (∀ l, iter2 l ≡ₚ l) →
  GenerateDiff iter1 stored incoming = GenerateDiff iter2 stored incoming
  ∧ ∀ ms mi, union_keys iter1 ms mi = union_keys iter2 ms mi
             ∧ StronglySorted key_le (union_keys iter1 ms mi).
Proof.
  intros H1 H2. split.
  - unfold GenerateDiff. f_equal. by apply diff_values_iter.
  - intros ms mi. split; [by apply union_keys_iter|apply union_keys_sorted].
Qed.

Lemma GenerateDiff_deterministic_witness :
  GenerateDiff id Scenario.stored Scenario.incoming
  = GenerateDiff reverse Scenario.stored Scenario.incoming
  ∧ ∀ ms mi, union_keys id ms mi = union_keys reverse ms mi
             ∧ StronglySorted key_le (union_keys id ms mi).
Proof.
  apply (GenerateDiff_deterministic id reverse).
  - intros l. reflexivity.
  - intros l. apply reverse_Permutation.
Defined.

(** C2 (immutability checker).  A violation is reported exactly for the
    records whose path is a declared immutable path or lies below one
    (prefix match on the segments, a wildcard segment standing for any
    index); changing [spec.network.cidr] under
    the immutable path [spec.network] gives exactly one violation, at
    [spec.network.cidr]; and when no record matches any pattern the result
    is the empty sequence. *)
Theorem AssertImmutableViolations_exact iter :
  (∀ l, iter l ≡ₚ l) →
  (∀ diffs pats v,
     v ∈ AssertImmutableViolations diffs pats
     ↔ ∃ d pat, d ∈ diffs ∧ pat ∈ pats ∧ covers pat (diffPath d)
                ∧ v = violation_of d)
  ∧ (∀ diffs,
       GenerateDiff iter Scenario.stored Scenario.incoming = inr diffs →
       AssertImmutableViolations diffs [Scenario.spec_network]
       = [Scenario.cidr_violation])
  ∧ (∀ diffs pats,
       (∀ d pat, d ∈ diffs → pat ∈ pats → ¬ covers pat (diffPath d)) →
       AssertImmutableViolations diffs pats = []).
Proof.
  intros Hiter. split; [|split].
  - apply elem_of_AssertImmutableViolations.
  - intros diffs Hd. unfold GenerateDiff in Hd.
    rewrite (diff_values_iter iter id) in Hd by done.
    injection Hd as <-. vm_compute. reflexivity.
  - intros diffs pats Hnone.
    destruct (AssertImmutableViolations diffs pats) as [|v vs] eqn:Hv; [done|].
    assert (v ∈ AssertImmutableViolations diffs pats) as Hin
      by (rewrite Hv; left).
    apply elem_of_AssertImmutableViolations in Hin.
    destruct Hin as (d & pat & Hd & Hp & Hc & _). by destruct (Hnone d pat).
Qed.

Lemma AssertImmutableViolations_exact_witness :
  (∀ l : list string, id l ≡ₚ l)
  ∧ AssertImmutableViolations
      (diff_values id [] (VMap Scenario.stored) (VMap Scenario.incoming))
      [Scenario.spec_network]
    = [Scenario.cidr_violation].
Proof.
  split; [done|].
  apply (AssertImmutableViolations_exact id); [done|reflexivity].
Defined.

(** C8 (unknown category).  For a category that the loaded rules do not
    declare, [GetImmutables] returns the empty set, it has no error to
    return, and checking any diff against that answer reports nothing. *)
Theorem GetImmutables_unknown_category (r : Rules.RuleSource) (category : string) :
  Rules.immutables r !! category = None →
  Rules.GetImmutables r category = []
  ∧ ∀ diffs, AssertImmutableViolations diffs (Rules.GetImmutables r category) = [].
Proof.
  intros Hnone. unfold Rules.GetImmutables. rewrite Hnone. simpl.
  split; [reflexivity|apply AssertImmutableViolations_no_patterns].
Qed.

Lemma GetImmutables_unknown_category_witness :
  Rules.GetImmutables (Rules.mkRuleSource Scenario.rules) "nonexistent" = []
  ∧ ∀ diffs,
      AssertImmutableViolations diffs
        (Rules.GetImmutables (Rules.mkRuleSource Scenario.rules) "nonexistent") = [].
Proof.
  apply (GetImmutables_unknown_category (Rules.mkRuleSource Scenario.rules) "nonexistent").
  reflexivity.
Defined.

End DiffFacts.

Module CreateFacts.
Import Create.

Ltac run :=
  unfold CheckStateDiffs, checkCategory, trace, outcome,
    mbind, mret, Run_bind, Run_ret, bind, ret, call, wrap, emit, fail;
  simpl.

Section PreFlightFacts.
Context {Changelog RulesBuilder Immutables : Type}.
Variable w : @World Changelog RulesBuilder Immutables.
Variable path_Join : string → string → string.
Variable p : PreFlight.

(** *** [CheckStateDiffs], step by step *)

Lemma CheckStateDiffs_loaded text stored incoming diffs r :
  getConfig w = inr text →
  unmarshalV3 w text = inr stored →
  fromFileV3 w (furyctlConfPath p) = inr incoming →
  generateDiff w stored incoming = inr diffs →
  newEKSClusterRulesBuilder w (distroPath p) = inr r →
  CheckStateDiffs w p =
    ([GetConfig; UnmarshalV3 text; FromFileV3 (furyctlConfPath p);
      GenerateDiff stored incoming; LogDiff diffs;
      NewEKSClusterRulesBuilder (distroPath p);
      GetImmutables "infrastructure";
      AssertImmutableViolations diffs (getImmutables w r "infrastructure");
      GetImmutables "kubernetes";
      AssertImmutableViolations diffs (getImmutables w r "kubernetes");
      GetImmutables "distribution";
      AssertImmutableViolations diffs (getImmutables w r "distribution")],
     match violations w diffs r "infrastructure" ++ violations w diffs r "kubernetes"
           ++ violations w diffs r "distribution" with
     | [] => Ret tt
     | errs => Fail (ErrAggregate errImmutable errs)
     end).
Proof.
  intros Hc Hs Hi Hd Hr. run.
  rewrite Hc. simpl. rewrite Hs. simpl. rewrite Hi. simpl. rewrite Hd. simpl.
  rewrite Hr. simpl. rewrite <-app_assoc. unfold violations.
  by destruct (_ ++ _).
Qed.

Lemma CheckStateDiffs_no_stored_config e :
  getConfig w = inl e →
  CheckStateDiffs w p
  = ([GetConfig], Fail (ErrWrap "error while getting current cluster config" e)).
Proof. intros Hc. run. by rewrite Hc. Qed.

Lemma CheckStateDiffs_bad_stored_config text e :
  getConfig w = inr text →
  unmarshalV3 w text = inl e →
  CheckStateDiffs w p
  = ([GetConfig; UnmarshalV3 text],
     Fail (ErrWrap "error while unmarshalling config file" e)).
Proof. intros Hc Hs. run. rewrite Hc. simpl. by rewrite Hs. Qed.

Lemma CheckStateDiffs_bad_config_file text stored e :
  getConfig w = inr text →
  unmarshalV3 w text = inr stored →
  fromFileV3 w (furyctlConfPath p) = inl e →
  CheckStateDiffs w p
  = ([GetConfig; UnmarshalV3 text; FromFileV3 (furyctlConfPath p)],
     Fail (ErrWrap "error while reading config file" e)).
Proof.
  intros Hc Hs Hi. run. rewrite Hc. simpl. rewrite Hs. simpl. by rewrite Hi.
Qed.

Lemma CheckStateDiffs_no_rules text stored incoming diffs e :
  getConfig w = inr text →
  unmarshalV3 w text = inr stored →
  fromFileV3 w (furyctlConfPath p) = inr incoming →
  generateDiff w stored incoming = inr diffs →
  newEKSClusterRulesBuilder w (distroPath p) = inl e →
  CheckStateDiffs w p
  = ([GetConfig; UnmarshalV3 text; FromFileV3 (furyctlConfPath p);
      GenerateDiff stored incoming; LogDiff diffs;
      NewEKSClusterRulesBuilder (distroPath p)],
     Fail (ErrWrap "error while creating rules builder" e)).
Proof.
  intros Hc Hs Hi Hd Hr. run.
  rewrite Hc. simpl. rewrite Hs. simpl. rewrite Hi. simpl. rewrite Hd. simpl.
  by rewrite Hr.
Qed.

(** *** [Exec], step by step *)

Lemma copyFromTemplate_skips :
  skipsStateChecks (trace (copyFromTemplate w path_Join p)).
Proof.
  unfold copyFromTemplate, skipsStateChecks, defer. run.
  destruct (mkdirTemp w) as [e|tmp]; simpl; [by repeat constructor|].
  destruct (fsSub w) as [e|[]]; simpl; [by repeat constructor|].
  destruct (copyRecursive w tmp) as [e|[]]; simpl; [by repeat constructor|].
  destruct (phaseCopyFromTemplate w _ _ _ _) as [e|[]]; simpl; by repeat constructor.
Qed.

Lemma initTrace_skips : skipsStateChecks (initTrace w path_Join p).
Proof.
  unfold initTrace, skipsStateChecks. rewrite !Forall_app.
  split; [by repeat constructor|].
  split; [apply copyFromTemplate_skips|by repeat constructor].
Qed.

Lemma Exec_no_cluster e :
  initialized w path_Join p →
  terraformState w stateShowArgs = inl e →
  Exec w path_Join p
  = (initTrace w path_Join p
     ++ [Log Debug "Cluster does not exist, skipping state checks";
         Log Info "Preflight checks completed successfully"],
     Ret tt).
Proof.
  intros (Hf & Ht & Hs & Hi) He. unfold Exec, initTrace.
  destruct (copyFromTemplate w path_Join p) as [t o]. simpl in Ht. subst o.
  run. rewrite Hf. simpl. rewrite Hs. simpl. rewrite Hi. simpl. rewrite He. simpl.
  by rewrite <-!app_assoc.
Qed.

Lemma Exec_unreachable out e :
  initialized w path_Join p →
  terraformState w stateShowArgs = inr out →
  kubectlVersion w = inl e →
  Exec w path_Join p
  = (initTrace w path_Join p ++ [Log Info "Checking that the cluster is reachable..."; KubectlVersion],
     Fail (ErrWrap "cluster is unreachable, make sure you have access to the cluster" e)).
Proof.
  intros (Hf & Ht & Hs & Hi) Ho He. unfold Exec, initTrace.
  destruct (copyFromTemplate w path_Join p) as [t o]. simpl in Ht. subst o.
  run. rewrite Hf. simpl. rewrite Hs. simpl. rewrite Hi. simpl. rewrite Ho. simpl.
  rewrite He. simpl. by rewrite <-!app_assoc.
Qed.

Lemma Exec_state_checks_fail out ver e :
  initialized w path_Join p →
  terraformState w stateShowArgs = inr out →
  kubectlVersion w = inr ver →
  outcome (CheckStateDiffs w p) = Fail e →
  Exec w path_Join p
  = (initTrace w path_Join p
     ++ [Log Info "Checking that the cluster is reachable..."; KubectlVersion]
     ++ trace (CheckStateDiffs w p),
     Fail (ErrWrap "error checking state diffs" e)).
Proof.
  intros (Hf & Ht & Hs & Hi) Ho Hv He. unfold Exec, initTrace.
  destruct (copyFromTemplate w path_Join p) as [t o]. simpl in Ht. subst o.
  destruct (CheckStateDiffs w p) as [tc oc]. simpl in He. subst oc.
  unfold trace, outcome, mbind, mret, Run_bind, Run_ret, bind, ret, call, wrap, emit.
  simpl. rewrite Hf. simpl. rewrite Hs. simpl. rewrite Hi. simpl. rewrite Ho. simpl.
  rewrite Hv. simpl. by rewrite <-!app_assoc.
Qed.

(** *** The claims on the pre-flight phase *)

(** C1 (aggregation).  Once both configurations are loaded, diffed and the
    rules are built, [CheckStateDiffs] runs the immutability checker once
    for "infrastructure", once for "kubernetes" and once for
    "distribution", in that order; it succeeds exactly when the three
    answers together are empty, and otherwise fails with one error that
    wraps every violation of the three answers. *)
Theorem CheckStateDiffs_aggregates text stored incoming diffs r :
  getConfig w = inr text →
  unmarshalV3 w text = inr stored →
  fromFileV3 w (furyctlConfPath p) = inr incoming →
  generateDiff w stored incoming = inr diffs →
  newEKSClusterRulesBuilder w (distroPath p) = inr r →
  let errs := violations w diffs r "infrastructure" ++ violations w diffs r "kubernetes"
              ++ violations w diffs r "distribution" in
  List.filter isCheckerCall (trace (CheckStateDiffs w p))
  = [AssertImmutableViolations diffs (getImmutables w r "infrastructure");
     AssertImmutableViolations diffs (getImmutables w r "kubernetes");
     AssertImmutableViolations diffs (getImmutables w r "distribution")]
  ∧ (outcome (CheckStateDiffs w p) = Ret tt ↔ errs = [])
  ∧ (errs ≠ [] →
     outcome (CheckStateDiffs w p) = Fail (ErrAggregate errImmutable errs)).
Proof.
  intros Hc Hs Hi Hd Hr errs.
  rewrite (CheckStateDiffs_loaded _ _ _ _ _ Hc Hs Hi Hd Hr).
  fold errs. unfold trace, outcome. simpl.
  split; [reflexivity|]. destruct errs as [|e errs]; split; done.
Qed.

(** C3 (first-ever apply).  After [terraform init], when
    [terraform state show] finds no cluster resource, [Exec] returns nil
    and has called neither the reachability check, nor the diff engine, nor
    the immutability checker. *)
Theorem Exec_first_apply e :
  initialized w path_Join p →
  terraformState w stateShowArgs = inl e →
  outcome (Exec w path_Join p) = Ret tt
  ∧ skipsStateChecks (trace (Exec w path_Join p)).
Proof.
  intros Hinit He. rewrite (Exec_no_cluster _ Hinit He).
  split; [reflexivity|]. unfold trace, skipsStateChecks. cbn [fst].
  rewrite Forall_app. split; [apply initTrace_skips|by repeat constructor].
Qed.

(** C5 (unreachable cluster).  When the cluster resource is in the remote
    state and the reachability check fails, [Exec] fails with that error,
    and no diff was generated and no immutability check was run. *)
Theorem Exec_unreachable_cluster out e :
  initialized w path_Join p →
  terraformState w stateShowArgs = inr out →
  kubectlVersion w = inl e →
  outcome (Exec w path_Join p)
  = Fail (ErrWrap "cluster is unreachable, make sure you have access to the cluster" e)
  ∧ skipsDiffing (trace (Exec w path_Join p)).
Proof.
  intros Hinit Ho He. rewrite (Exec_unreachable _ _ Hinit Ho He).
  split; [reflexivity|]. unfold trace, skipsDiffing. cbn [fst].
  rewrite Forall_app. split; [|by repeat constructor].
  eapply Forall_impl; [apply initTrace_skips|]. simpl. tauto.
Qed.

(** C4, as amended (load errors).  A stored configuration that cannot be
    read or parsed and a configuration file that cannot be read or parsed
    each end [CheckStateDiffs] with an error at once: the failing call is
    the last one and was made once, and no diff has run.  A rules builder
    that cannot be built ends it at once too, before any immutability
    check, but after the diff has been generated.  [Exec] then fails with
    that error. *)
Theorem CheckStateDiffs_load_errors :
  (∀ e, getConfig w = inl e →
        CheckStateDiffs w p
        = ([GetConfig], Fail (ErrWrap "error while getting current cluster config" e)))
  ∧ (∀ text e,
       getConfig w = inr text → unmarshalV3 w text = inl e →
       CheckStateDiffs w p
       = ([GetConfig; UnmarshalV3 text],
          Fail (ErrWrap "error while unmarshalling config file" e)))
  ∧ (∀ text stored e,
       getConfig w = inr text → unmarshalV3 w text = inr stored →
       fromFileV3 w (furyctlConfPath p) = inl e →
       CheckStateDiffs w p
       = ([GetConfig; UnmarshalV3 text; FromFileV3 (furyctlConfPath p)],
          Fail (ErrWrap "error while reading config file" e)))
  ∧ (∀ text stored incoming diffs e,
       getConfig w = inr text → unmarshalV3 w text = inr stored →
       fromFileV3 w (furyctlConfPath p) = inr incoming →
       generateDiff w stored incoming = inr diffs →
       newEKSClusterRulesBuilder w (distroPath p) = inl e →
       CheckStateDiffs w p
       = ([GetConfig; UnmarshalV3 text; FromFileV3 (furyctlConfPath p);
           GenerateDiff stored incoming; LogDiff diffs;
           NewEKSClusterRulesBuilder (distroPath p)],
          Fail (ErrWrap "error while creating rules builder" e)))
  ∧ (∀ out ver e,
       initialized w path_Join p →
       terraformState w stateShowArgs = inr out → kubectlVersion w = inr ver →
       outcome (CheckStateDiffs w p) = Fail e →
       outcome (Exec w path_Join p) = Fail (ErrWrap "error checking state diffs" e)).
Proof.
  split; [|split; [|split; [|split]]].
  - apply CheckStateDiffs_no_stored_config.
  - apply CheckStateDiffs_bad_stored_config.
  - apply CheckStateDiffs_bad_config_file.
  - apply CheckStateDiffs_no_rules.
  - intros out ver e Hinit Ho Hv He.
    by rewrite (Exec_state_checks_fail _ _ _ Hinit Ho Hv He).
Qed.

End PreFlightFacts.

(** C9 (the state error is not inspected).  Whatever error
    [terraform state show] returns, [Exec] returns nil, skips the
    reachability check and every diff and immutability check, and runs the
    same way as for any other error. *)
Theorem Exec_ignores_state_error {Changelog RulesBuilder Immutables : Type}
    (w : @World Changelog RulesBuilder Immutables)
    (path_Join : string → string → string) (p : PreFlight) (e e' : GoError) :
  initialized w path_Join p →
  outcome (Exec (withTerraformState w (inl e)) path_Join p) = Ret tt
  ∧ skipsStateChecks (trace (Exec (withTerraformState w (inl e)) path_Join p))
  ∧ Exec (withTerraformState w (inl e)) path_Join p
    = Exec (withTerraformState w (inl e')) path_Join p.
Proof.
  intros Hinit.
  assert (∀ r, initialized (withTerraformState w r) path_Join p) as Hinit'
    by (intros r; exact Hinit).
  rewrite (Exec_no_cluster (withTerraformState w (inl e)) path_Join p e
             (Hinit' _) eq_refl).
  rewrite (Exec_no_cluster (withTerraformState w (inl e')) path_Join p e'
             (Hinit' _) eq_refl).
  split; [reflexivity|]. split; [|reflexivity].
  unfold trace, skipsStateChecks. cbn [fst].
  rewrite Forall_app. split; [|by repeat constructor].
  apply (initTrace_skips (withTerraformState w (inl e))).
Qed.

(** *** The claims at work on a cluster *)

Lemma CheckStateDiffs_aggregates_witness :
  List.filter isCheckerCall
    (trace (CheckStateDiffs
              (Scenario.world Scenario.state_found Scenario.reachable
                 Scenario.schema_present) Scenario.phase))
  = [AssertImmutableViolations
       [Diff.changed Scenario.spec_network_cidr (VStr "10.0.0.0/16") (VStr "10.1.0.0/16")]
       [Scenario.spec_network];
     AssertImmutableViolations
       [Diff.changed Scenario.spec_network_cidr (VStr "10.0.0.0/16") (VStr "10.1.0.0/16")]
       [];
     AssertImmutableViolations
       [Diff.changed Scenario.spec_network_cidr (VStr "10.0.0.0/16") (VStr "10.1.0.0/16")]
       []]
  ∧ outcome (CheckStateDiffs
               (Scenario.world Scenario.state_found Scenario.reachable
                  Scenario.schema_present) Scenario.phase)
    = Fail (ErrAggregate errImmutable [ErrViolation Scenario.cidr_violation]).
Proof.
  pose proof (CheckStateDiffs_aggregates
    (Scenario.world Scenario.state_found Scenario.reachable Scenario.schema_present)
    Scenario.phase Scenario.stored_yaml Scenario.stored Scenario.incoming
    [Diff.changed Scenario.spec_network_cidr (VStr "10.0.0.0/16") (VStr "10.1.0.0/16")]
    (Rules.mkRuleSource Scenario.rules)
    eq_refl eq_refl eq_refl eq_refl eq_refl) as (Hcalls & _ & Hfail).
  split; [exact Hcalls|]. apply Hfail. discriminate.
Defined.

Lemma Exec_first_apply_witness :
  outcome (Exec (Scenario.world Scenario.state_missing Scenario.reachable
                   Scenario.schema_present) Scenario.path_Join Scenario.phase)
  = Ret tt
  ∧ skipsStateChecks
      (trace (Exec (Scenario.world Scenario.state_missing Scenario.reachable
                      Scenario.schema_present) Scenario.path_Join Scenario.phase)).
Proof.
  apply (Exec_first_apply
           (Scenario.world Scenario.state_missing Scenario.reachable
              Scenario.schema_present)
           Scenario.path_Join Scenario.phase
           (ErrExternal "No instance found for the given address!")).
  - repeat split; reflexivity.
  - reflexivity.
Defined.

Lemma Exec_unreachable_cluster_witness :
  outcome (Exec (Scenario.world Scenario.state_found Scenario.unreachable
                   Scenario.schema_present) Scenario.path_Join Scenario.phase)
  = Fail (ErrWrap "cluster is unreachable, make sure you have access to the cluster"
            (ErrExternal "Unable to connect to the server"))
  ∧ skipsDiffing
      (trace (Exec (Scenario.world Scenario.state_found Scenario.unreachable
                      Scenario.schema_present) Scenario.path_Join Scenario.phase)).
Proof.
  apply (Exec_unreachable_cluster
           (Scenario.world Scenario.state_found Scenario.unreachable
              Scenario.schema_present)
           Scenario.path_Join Scenario.phase "# data.aws_eks_cluster.fury:").
  - repeat split; reflexivity.
  - reflexivity.
  - reflexivity.
Defined.

Lemma Exec_ignores_state_error_witness :
  outcome (Exec (withTerraformState
                   (Scenario.world Scenario.state_found Scenario.reachable
                      Scenario.schema_present)
                   (inl (ErrExternal "Error acquiring the state lock")))
             Scenario.path_Join Scenario.phase)
  = Ret tt.
Proof.
  apply (Exec_ignores_state_error
           (Scenario.world Scenario.state_found Scenario.reachable
              Scenario.schema_present)
           Scenario.path_Join Scenario.phase
           (ErrExternal "Error acquiring the state lock")
           (ErrExternal "No instance found for the given address!")).
  repeat split; reflexivity.
Defined.

(** C4, as stated, fails: with no rule schema file the rules builder
    cannot be built and [CheckStateDiffs] fails, yet the diff engine has
    already run. *)
Lemma CheckStateDiffs_diff_runs_before_rules :
  newEKSClusterRulesBuilder
    (Scenario.world Scenario.state_found Scenario.reachable Scenario.no_schema)
    (distroPath Scenario.phase)
  = inl (ErrExternal "rule schema not found")
  ∧ outcome (CheckStateDiffs
               (Scenario.world Scenario.state_found Scenario.reachable
                  Scenario.no_schema) Scenario.phase)
    = Fail (ErrWrap "error while creating rules builder"
              (ErrExternal "rule schema not found"))
  ∧ ¬ skipsDiffing
        (trace (CheckStateDiffs
                  (Scenario.world Scenario.state_found Scenario.reachable
                     Scenario.no_schema) Scenario.phase)).
Proof.
  split; [reflexivity|]. split; [reflexivity|].
  intros Hskip. vm_compute in Hskip.
  do 3 apply Forall_cons_1, proj2 in Hskip.
  apply Forall_cons_1, proj1, proj1 in Hskip. discriminate.
Qed.

Lemma CheckStateDiffs_load_errors_witness :
  CheckStateDiffs
    (Scenario.world Scenario.state_found Scenario.reachable Scenario.no_schema)
    Scenario.phase
  = ([GetConfig; UnmarshalV3 Scenario.stored_yaml; FromFileV3 "furyctl.yaml";
      GenerateDiff Scenario.stored Scenario.incoming;
      LogDiff [Diff.changed Scenario.spec_network_cidr (VStr "10.0.0.0/16")
                 (VStr "10.1.0.0/16")];
      NewEKSClusterRulesBuilder "/distro"],
     Fail (ErrWrap "error while creating rules builder"
             (ErrExternal "rule schema not found"))).
Proof.
  apply (CheckStateDiffs_load_errors
           (Scenario.world Scenario.state_found Scenario.reachable Scenario.no_schema)
           Scenario.path_Join Scenario.phase); reflexivity.
Defined.

End CreateFacts.

Module ConfigurationFacts.
Import Configuration.

Section ParseFacts.
Context {AWSSimple Dummy AWS : Type}.
Variable w : @World AWSSimple Dummy AWS.

Lemma assertMap_panics (spec : @SpecValue AWSSimple Dummy AWS) :
  (∀ m, spec ≠ SpecRaw (NMap m)) →
  assertMap spec
  = ([], Panic "interface conversion: interface {} is not map[interface {}]interface {}").
Proof.
  intros Hspec. destruct spec as [[| | | | |m]| | |]; try reflexivity.
  by destruct (Hspec m).
Qed.

Lemma clusterParser_panics config :
  (∀ m, Spec config ≠ SpecRaw (NMap m)) →
  clusterParser w config
  = ([], Panic "interface conversion: interface {} is not map[interface {}]interface {}").
Proof.
  intros Hspec. unfold clusterParser, mbind, Run_bind, bind.
  by rewrite (assertMap_panics _ Hspec).
Qed.

Lemma bootstrapParser_panics config :
  (∀ m, Spec config ≠ SpecRaw (NMap m)) →
  bootstrapParser w config
  = ([], Panic "interface conversion: interface {} is not map[interface {}]interface {}").
Proof.
  intros Hspec. unfold bootstrapParser, mbind, Run_bind, bind.
  by rewrite (assertMap_panics _ Hspec).
Qed.

(** C10 (unchecked type assertion).  When the file reads and decodes as a
    configuration of kind "Cluster" or "Bootstrap" whose [spec] is absent
    (nil) or is anything but a mapping, [Parse] does not return: the type
    assertion on [config.Spec] panics, before anything is logged by the
    parser of that kind and with no error value. *)
Theorem Parse_panics_without_spec_mapping path content config :
  readFile w path = inr content →
  unmarshalConfiguration w content = inr config →
  Kind config = "Cluster" ∨ Kind config = "Bootstrap" →
  (∀ m, Spec config ≠ SpecRaw (NMap m)) →
  Parse w path
  = ([ReadFile path; Unmarshal content],
     Panic "interface conversion: interface {} is not map[interface {}]interface {}")
  ∧ (∀ e, outcome (Parse w path) ≠ Fail e).
Proof.
  intros Hread Hconf Hkind Hspec.
  assert (Parse w path
          = ([ReadFile path; Unmarshal content],
             Panic "interface conversion: interface {} is not map[interface {}]interface {}"))
    as Hrun.
  { unfold Parse, logged, mbind, Run_bind, bind, call.
    rewrite Hread. simpl. rewrite Hconf. simpl.
    destruct Hkind as [-> | ->]; simpl.
    - by rewrite (clusterParser_panics _ Hspec).
    - by rewrite (bootstrapParser_panics _ Hspec). }
  split; [exact Hrun|]. intros e. by rewrite Hrun.
Qed.

End ParseFacts.

Example Parse_cluster_aws_simple :
  outcome (Parse (Scenario.config_world_of (Scenario.with_provisioner "Cluster" "aws-simple"))
             "furyctl.yaml")
  = Ret (withSpec (Scenario.with_provisioner "Cluster" "aws-simple") "aws-simple"
           (SpecAWSSimple tt)).
Proof. reflexivity. Qed.

Example Parse_bootstrap_unknown_provisioner :
  outcome (Parse (Scenario.config_world_of (Scenario.with_provisioner "Bootstrap" "gcp"))
             "furyctl.yaml")
  = Fail (ErrNew "Bootstrap provisioner not found").
Proof. reflexivity. Qed.

Example Parse_unknown_kind :
  outcome (Parse (Scenario.config_world_of (Scenario.with_provisioner "Other" "aws"))
             "furyctl.yaml")
  = Fail (ErrNew "Parser not found for Other kind").
Proof. reflexivity. Qed.

Lemma Parse_panics_without_spec_mapping_witness :
  Parse Scenario.config_world "furyctl.yaml"
  = ([ReadFile "furyctl.yaml"; Unmarshal "kind: Cluster"],
     Panic "interface conversion: interface {} is not map[interface {}]interface {}")
  ∧ (∀ e, outcome (Parse Scenario.config_world "furyctl.yaml") ≠ Fail e).
Proof.
  apply (Parse_panics_without_spec_mapping Scenario.config_world "furyctl.yaml"
           "kind: Cluster" Scenario.cluster_without_spec).
  - reflexivity.
  - reflexivity.
  - left. reflexivity.
  - intros m. discriminate.
Defined.

End ConfigurationFacts.

(** * More of the pre-flight phase *)

Module PreFlightStepsFacts.
Import Create PreFlightSteps.

#[local] Set Warnings "-clear-no-such-hyp".

Ltac unfold_run :=
  unfold trace, outcome, mbind, mret, Run_bind, Run_ret, bind, ret, call, wrap,
    emit, fail, defer.

Section StepFacts.
Context {Changelog RulesBuilder Immutables : Type}.
Variable w : @World Changelog RulesBuilder Immutables.
Variable path_Join : string → string → string.
Variable p : PreFlight.

(** *** [copyFromTemplate] *)

Lemma copyFromTemplate_no_temp_folder e :
  mkdirTemp w = inl e →
  copyFromTemplate w path_Join p
  = ([MkdirTemp], Fail (ErrWrap "error creating temp folder" e)).
Proof. intros He. unfold copyFromTemplate. unfold_run. by rewrite He. Qed.

(** X1.  Once the temp folder exists, [copyFromTemplate] removes it
    exactly once, as the last thing it does, whether the steps in between
    succeed or fail. *)
Theorem copyFromTemplate_removes_temp_folder tmp :
  mkdirTemp w = inr tmp →
  ∃ body,
    trace (copyFromTemplate w path_Join p) = MkdirTemp :: body ++ [RemoveAll tmp]
    ∧ Forall (λ ev, isRemoveAll ev = false) body.
Proof.
  intros Ht. unfold copyFromTemplate. unfold_run. rewrite Ht. simpl.
  destruct (fsSub w) as [e|[]]; simpl.
  { exists [FsSub]. split; [reflexivity|by repeat constructor]. }
  destruct (copyRecursive w tmp) as [e|[]]; simpl.
  { exists [FsSub; CopyRecursive tmp]. split; [reflexivity|by repeat constructor]. }
  destruct (phaseCopyFromTemplate w _ _ _ _) as [e|[]]; simpl;
    eexists [FsSub; CopyRecursive tmp; PhaseCopyFromTemplate _ _ _ _];
    (split; [reflexivity|by repeat constructor]).
Qed.

Lemma copyFromTemplate_failure e :
  outcome (copyFromTemplate w path_Join p) = Fail e →
  ∃ msg inner, e = ErrWrap msg inner ∧ msg ∈ templateMessages.
Proof.
  unfold copyFromTemplate, templateMessages. unfold_run.
  destruct (mkdirTemp w) as [e'|tmp]; simpl.
  { intros [= <-]. eexists _, _. split; [done|set_solver]. }
  destruct (fsSub w) as [e'|[]]; simpl.
  { intros [= <-]. eexists _, _. split; [done|set_solver]. }
  destruct (copyRecursive w tmp) as [e'|[]]; simpl.
  { intros [= <-]. eexists _, _. split; [done|set_solver]. }
  destruct (phaseCopyFromTemplate w _ _ _ _) as [e'|[]]; simpl; [|done].
  intros [= <-]. eexists _, _. split; [done|set_solver].
Qed.

Lemma copyFromTemplate_calls :
  Forall (λ ev, isTemplateCall ev = true) (trace (copyFromTemplate w path_Join p)).
Proof.
  unfold copyFromTemplate. unfold_run.
  destruct (mkdirTemp w) as [e|tmp]; simpl; [by repeat constructor|].
  destruct (fsSub w) as [e|[]]; simpl; [by repeat constructor|].
  destruct (copyRecursive w tmp) as [e|[]]; simpl; [by repeat constructor|].
  destruct (phaseCopyFromTemplate w _ _ _ _) as [e|[]]; simpl; by repeat constructor.
Qed.

Lemma not_in_copyFromTemplate ev :
  isTemplateCall ev = false → ev ∉ trace (copyFromTemplate w path_Join p).
Proof.
  intros Hev Hin. pose proof copyFromTemplate_calls as Hall.
  rewrite Forall_forall in Hall. specialize (Hall ev Hin). congruence.
Qed.

(** *** [CheckStateDiffs] *)

Lemma CheckStateDiffs_calls :
  Forall (λ ev, isStateDiffCall ev = true) (trace (CheckStateDiffs w p)).
Proof.
  unfold CheckStateDiffs, checkCategory. unfold_run.
  destruct (getConfig w) as [e|text]; simpl; [by repeat constructor|].
  destruct (unmarshalV3 w text) as [e|stored]; simpl; [by repeat constructor|].
  destruct (fromFileV3 w _) as [e|incoming]; simpl; [by repeat constructor|].
  destruct (generateDiff w stored incoming) as [e|diffs]; simpl;
    [by repeat constructor|].
  destruct (newEKSClusterRulesBuilder w _) as [e|r]; simpl; [by repeat constructor|].
  destruct (0 <? length _)%nat; simpl; by repeat constructor.
Qed.

Lemma not_in_CheckStateDiffs ev :
  isStateDiffCall ev = false → ev ∉ trace (CheckStateDiffs w p).
Proof.
  intros Hev Hin. pose proof CheckStateDiffs_calls as Hall.
  rewrite Forall_forall in Hall. specialize (Hall ev Hin). congruence.
Qed.

Lemma CheckStateDiffs_diff_error text stored incoming e :
  getConfig w = inr text →
  unmarshalV3 w text = inr stored →
  fromFileV3 w (furyctlConfPath p) = inr incoming →
  generateDiff w stored incoming = inl e →
  CheckStateDiffs w p
  = ([GetConfig; UnmarshalV3 text; FromFileV3 (furyctlConfPath p);
      GenerateDiff stored incoming],
     Fail (ErrWrap "error while diffing configs" e)).
Proof.
  intros Hc Hs Hi Hd. unfold CheckStateDiffs. unfold_run.
  rewrite Hc. simpl. rewrite Hs. simpl. rewrite Hi. simpl. by rewrite Hd.
Qed.

(** X2.  [copyFromTemplate] returns nil exactly when the temp folder, the
    embedded sub-filesystem, the copy and the template generation all
    succeed; the templates go to [path.Join(p.Path, "terraform")] under the
    prefix "kube". *)
Theorem copyFromTemplate_succeeds_iff :
  outcome (copyFromTemplate w path_Join p) = Ret tt
  ↔ ∃ tmp, mkdirTemp w = inr tmp ∧ fsSub w = inr tt
           ∧ copyRecursive w tmp = inr tt
           ∧ phaseCopyFromTemplate w "kube" tmp (path_Join (Path p) "terraform")
               (furyctlConfPath p) = inr tt.
Proof.
  unfold copyFromTemplate. unfold_run.
  destruct (mkdirTemp w) as [e|tmp]; simpl.
  { split; [done|]. by intros (tmp & [=] & _). }
  destruct (fsSub w) as [e|[]] eqn:Hsub; simpl.
  { split; [done|]. by intros (tmp' & _ & [=] & _). }
  destruct (copyRecursive w tmp) as [e|[]] eqn:Hcopy; simpl.
  { split; [done|]. intros (tmp' & [= <-] & _ & Hc & _). congruence. }
  destruct (phaseCopyFromTemplate w _ _ _ _) as [e|[]] eqn:Hgen; simpl.
  { split; [done|]. intros (tmp' & [= <-] & _ & _ & Hg). congruence. }
  split; [|done]. intros _. by exists tmp.
Qed.

(** X9.  [CheckStateDiffs] returns nil exactly when the stored
    configuration is read and parsed, the configuration file is read, the
    diff and the rules builder are obtained, and none of the three
    categories reports a violation. *)
Theorem CheckStateDiffs_succeeds_iff :
  outcome (CheckStateDiffs w p) = Ret tt
  ↔ ∃ text stored incoming diffs r,
      getConfig w = inr text ∧ unmarshalV3 w text = inr stored
      ∧ fromFileV3 w (furyctlConfPath p) = inr incoming
      ∧ generateDiff w stored incoming = inr diffs
      ∧ newEKSClusterRulesBuilder w (distroPath p) = inr r
      ∧ violations w diffs r "infrastructure" = []
      ∧ violations w diffs r "kubernetes" = []
      ∧ violations w diffs r "distribution" = [].
Proof.
  split.
  - destruct (getConfig w) as [e|text] eqn:Hc.
    { by rewrite (CreateFacts.CheckStateDiffs_no_stored_config _ _ _ Hc). }
    destruct (unmarshalV3 w text) as [e|stored] eqn:Hs.
    { by rewrite (CreateFacts.CheckStateDiffs_bad_stored_config _ _ _ _ Hc Hs). }
    destruct (fromFileV3 w (furyctlConfPath p)) as [e|incoming] eqn:Hi.
    { by rewrite (CreateFacts.CheckStateDiffs_bad_config_file _ _ _ _ _ Hc Hs Hi). }
    destruct (generateDiff w stored incoming) as [e|diffs] eqn:Hd.
    { by rewrite (CheckStateDiffs_diff_error _ _ _ _ Hc Hs Hi Hd). }
    destruct (newEKSClusterRulesBuilder w (distroPath p)) as [e|r] eqn:Hr.
    { by rewrite (CreateFacts.CheckStateDiffs_no_rules _ _ _ _ _ _ _ Hc Hs Hi Hd Hr). }
    rewrite (CreateFacts.CheckStateDiffs_loaded _ _ _ _ _ _ _ Hc Hs Hi Hd Hr).
    unfold outcome. simpl. intros Hok. exists text, stored, incoming, diffs, r.
    repeat (split; [done|]).
    destruct (violations w diffs r "infrastructure"); [|done].
    destruct (violations w diffs r "kubernetes"); [|done].
    by destruct (violations w diffs r "distribution").
  - intros (text & stored & incoming & diffs & r & Hc & Hs & Hi & Hd & Hr & H1 & H2 & H3).
    rewrite (CreateFacts.CheckStateDiffs_loaded _ _ _ _ _ _ _ Hc Hs Hi Hd Hr).
    by rewrite H1, H2, H3.
Qed.

(** X8.  A failure of [CheckStateDiffs] is of one of two kinds.  Either it
    is the immutability error, wrapping a list of violations that is not
    empty; or it is a load or diff error under one of five messages, and
    then the immutability checker has not been called at all. *)
Theorem CheckStateDiffs_failure_kinds e :
  outcome (CheckStateDiffs w p) = Fail e →
  (∃ errs, errs ≠ [] ∧ e = ErrAggregate errImmutable errs)
  ∨ (∃ msg inner, e = ErrWrap msg inner ∧ msg ∈ loadMessages
                  ∧ Forall (λ ev, isCheckerCall ev = false)
                      (trace (CheckStateDiffs w p))).
Proof.
  clear path_Join.
  destruct (getConfig w) as [e'|text] eqn:Hc.
  { rewrite (CreateFacts.CheckStateDiffs_no_stored_config _ _ _ Hc).
    intros [= <-]. right. eexists _, _. split; [done|].
    split; [set_solver|by repeat constructor]. }
  destruct (unmarshalV3 w text) as [e'|stored] eqn:Hs.
  { rewrite (CreateFacts.CheckStateDiffs_bad_stored_config _ _ _ _ Hc Hs).
    intros [= <-]. right. eexists _, _. split; [done|].
    split; [set_solver|by repeat constructor]. }
  destruct (fromFileV3 w (furyctlConfPath p)) as [e'|incoming] eqn:Hi.
  { rewrite (CreateFacts.CheckStateDiffs_bad_config_file _ _ _ _ _ Hc Hs Hi).
    intros [= <-]. right. eexists _, _. split; [done|].
    split; [set_solver|by repeat constructor]. }
  destruct (generateDiff w stored incoming) as [e'|diffs] eqn:Hd.
  { rewrite (CheckStateDiffs_diff_error _ _ _ _ Hc Hs Hi Hd).
    intros [= <-]. right. eexists _, _. split; [done|].
    split; [set_solver|by repeat constructor]. }
  destruct (newEKSClusterRulesBuilder w (distroPath p)) as [e'|r] eqn:Hr.
  { rewrite (CreateFacts.CheckStateDiffs_no_rules _ _ _ _ _ _ _ Hc Hs Hi Hd Hr).
    intros [= <-]. right. eexists _, _. split; [done|].
    split; [set_solver|by repeat constructor]. }
  rewrite (CreateFacts.CheckStateDiffs_loaded _ _ _ _ _ _ _ Hc Hs Hi Hd Hr).
  unfold outcome. simpl.
  destruct (_ ++ _) as [|v errs]; [done|]. intros [= <-]. left. exists (v :: errs). by split.
Qed.

(** X7.  When the diff engine fails, [CheckStateDiffs] fails with that
    error under "error while diffing configs", and neither the rules
    builder nor the immutability checker has been called. *)
Theorem CheckStateDiffs_diff_error_stops text stored incoming e :
  getConfig w = inr text →
  unmarshalV3 w text = inr stored →
  fromFileV3 w (furyctlConfPath p) = inr incoming →
  generateDiff w stored incoming = inl e →
  outcome (CheckStateDiffs w p) = Fail (ErrWrap "error while diffing configs" e)
  ∧ (NewEKSClusterRulesBuilder (distroPath p) ∉ trace (CheckStateDiffs w p))
  ∧ Forall (λ ev, isCheckerCall ev = false) (trace (CheckStateDiffs w p)).
Proof.
  clear path_Join.
  intros Hc Hs Hi Hd. rewrite (CheckStateDiffs_diff_error _ _ _ _ Hc Hs Hi Hd).
  unfold trace, outcome. simpl. split; [reflexivity|].
  split; [set_solver|by repeat constructor].
Qed.

(** *** [Exec] *)

(** Walks through [Exec] one step at a time; [tac] closes each branch. *)
Ltac exec_steps tac :=
  pose proof (not_in_copyFromTemplate) as Hnt;
  pose proof (not_in_CheckStateDiffs) as Hnc;
  unfold Exec, initialized, completed in *;
  destruct (createFolder w) as [?|[]]; [unfold_run; simpl in *; tac|];
  destruct (copyFromTemplate w path_Join p) as [t [[]|?|?]];
    [|unfold_run; simpl in *; tac|unfold_run; simpl in *; tac];
  destruct (createFolderStructure w) as [?|[]]; [unfold_run; simpl in *; tac|];
  destruct (terraformInit w) as [?|[]]; [unfold_run; simpl in *; tac|];
  destruct (terraformState w stateShowArgs) as [?|?]; [unfold_run; simpl in *; tac|];
  destruct (kubectlVersion w) as [?|?]; [unfold_run; simpl in *; tac|];
  destruct (CheckStateDiffs w p) as [tc [[]|?|?]]; unfold_run; simpl in *; tac.

(** X4.  [Exec] returns nil exactly when every step up to [terraform init]
    succeeds and then either [terraform state show] fails, or the cluster
    answers and [CheckStateDiffs] returns nil. *)
Theorem Exec_succeeds_iff :
  outcome (Exec w path_Join p) = Ret tt
  ↔ initialized w path_Join p
    ∧ ((∃ e, terraformState w stateShowArgs = inl e)
       ∨ ((∃ out, terraformState w stateShowArgs = inr out)
          ∧ (∃ ver, kubectlVersion w = inr ver)
          ∧ outcome (CheckStateDiffs w p) = Ret tt)).
Proof. exec_steps ltac:(naive_solver). Qed.

Ltac not_in_sub :=
  repeat match goal with
  | H : ∀ ev, _ → ev ∉ _ |- _ =>
      let H' := fresh in
      first
        [ pose proof (H (TerraformState stateShowArgs) eq_refl) as H'
        | idtac ];
      first [ pose proof (H KubectlVersion eq_refl) | idtac ];
      first [ pose proof (H (Log Info "Preflight checks completed successfully") eq_refl)
            | idtac ];
      clear H
  end.

(** X3.  [Exec] asks terraform for the cluster state exactly when every
    step up to [terraform init] succeeded, and asks the cluster for its
    version exactly when, in addition, [terraform state show] succeeded. *)
Theorem Exec_reaches :
  (TerraformState stateShowArgs ∈ trace (Exec w path_Join p)
   ↔ initialized w path_Join p)
  ∧ (KubectlVersion ∈ trace (Exec w path_Join p)
     ↔ initialized w path_Join p ∧ ∃ out, terraformState w stateShowArgs = inr out).
Proof.
  exec_steps ltac:(not_in_sub; unfold trace in *; simpl in *;
                   split; (split; [set_unfold; naive_solver|]);
                   set_unfold; naive_solver).
Qed.

(** X5.  The line "Preflight checks completed successfully" is logged
    exactly when [Exec] returns nil. *)
Theorem Exec_completed_iff :
  completed ∈ trace (Exec w path_Join p) ↔ outcome (Exec w path_Join p) = Ret tt.
Proof.
  exec_steps ltac:(not_in_sub; unfold trace in *; simpl in *;
                   (split; [set_unfold; naive_solver|]);
                   set_unfold; naive_solver).
Qed.

(** X6.  Every error [Exec] returns is wrapped in a message that names
    the step that failed, one of nine. *)
Theorem Exec_error_names_its_step e :
  outcome (Exec w path_Join p) = Fail e →
  ∃ msg inner, e = ErrWrap msg inner ∧ msg ∈ execMessages.
Proof.
  pose proof copyFromTemplate_failure as Hcopy. unfold execMessages, templateMessages in *.
  exec_steps ltac:(intros He; try done;
    first
      [ injection He as <-; eexists _, _; split; [reflexivity|set_solver]
      | injection He as <-;
        match goal with
        | H : ∀ e, Fail ?x = Fail e → _ |- _ =>
            destruct (H x eq_refl) as (msg & inner & -> & Hmsg)
        end;
        eexists _, _; split; [reflexivity|set_solver] ]).
Qed.

End StepFacts.

(** *** [NewPreFlight] *)

(** X10.  The phase built by [NewPreFlight] renders its terraform templates
    into the directory its terraform runner works in, reads the
    configuration file of [paths.ConfigPath], and takes the templates from
    the temp folder it has just created. *)
Theorem NewPreFlight_terraform_directory {Changelog RulesBuilder Immutables Tools : Type}
    (w : @World Changelog RulesBuilder Immutables)
    (OperationPhasePreFlight : string) (path_Join : string → string → string)
    (newOperationPhase : string → Tools → string → Result OperationPhase)
    tools paths dryRun kubeconfig b prefix source target confPath :
  NewPreFlight OperationPhasePreFlight path_Join newOperationPhase tools paths
    dryRun kubeconfig = inr b →
  PhaseCopyFromTemplate prefix source target confPath
    ∈ trace (copyFromTemplate w path_Join (preFlight b)) →
  target = tfWorkDir (tfRunner b) ∧ confPath = ConfigPath paths
  ∧ prefix = "kube" ∧ mkdirTemp w = inr source.
Proof.
  unfold NewPreFlight.
  destruct (newOperationPhase _ _ _) as [e|ph]; [done|]. intros [= <-]. simpl.
  unfold copyFromTemplate. unfold_run. simpl.
  destruct (mkdirTemp w) as [e|tmp]; simpl; [set_solver|].
  destruct (fsSub w) as [e|[]]; simpl; [set_solver|].
  destruct (copyRecursive w tmp) as [e|[]]; simpl; [set_solver|].
  destruct (phaseCopyFromTemplate w _ _ _ _) as [e|[]]; simpl;
    set_unfold; naive_solver.
Qed.

(** *** The steps at work *)

Lemma copyFromTemplate_removes_temp_folder_witness :
  ∃ body,
    trace (copyFromTemplate
             (Examples.template_world (inr tt) (inl (ErrExternal "disk full")) (inr tt))
             Scenario.path_Join Scenario.phase)
    = MkdirTemp :: body ++ [RemoveAll "/tmp/furyctl-kube-configs-1"]
    ∧ Forall (λ ev, isRemoveAll ev = false) body.
Proof.
  apply (copyFromTemplate_removes_temp_folder
           (Examples.template_world (inr tt) (inl (ErrExternal "disk full")) (inr tt))
           Scenario.path_Join Scenario.phase "/tmp/furyctl-kube-configs-1").
  reflexivity.
Defined.

Lemma CheckStateDiffs_diff_error_stops_witness :
  outcome (CheckStateDiffs Examples.diff_error_world Scenario.phase)
  = Fail (ErrWrap "error while diffing configs" (ErrExternal "type mismatch"))
  ∧ (NewEKSClusterRulesBuilder (distroPath Scenario.phase)
      ∉ trace (CheckStateDiffs Examples.diff_error_world Scenario.phase))
  ∧ Forall (λ ev, isCheckerCall ev = false)
      (trace (CheckStateDiffs Examples.diff_error_world Scenario.phase)).
Proof.
  apply (CheckStateDiffs_diff_error_stops Examples.diff_error_world Scenario.phase
           Scenario.stored_yaml Scenario.stored Scenario.incoming
           (ErrExternal "type mismatch")); reflexivity.
Defined.

Lemma CheckStateDiffs_failure_kinds_witness :
  (∃ errs, errs ≠ []
           ∧ ErrAggregate errImmutable [ErrViolation Scenario.cidr_violation]
             = ErrAggregate errImmutable errs)
  ∨ (∃ msg inner,
       ErrAggregate errImmutable [ErrViolation Scenario.cidr_violation]
       = ErrWrap msg inner
       ∧ msg ∈ loadMessages
       ∧ Forall (λ ev, isCheckerCall ev = false)
           (trace (CheckStateDiffs Examples.base Scenario.phase))).
Proof.
  apply (CheckStateDiffs_failure_kinds Examples.base Scenario.phase
           (ErrAggregate errImmutable [ErrViolation Scenario.cidr_violation])).
  reflexivity.
Defined.

Lemma Exec_error_names_its_step_witness :
  ∃ msg inner,
    ErrWrap "cluster is unreachable, make sure you have access to the cluster"
      (ErrExternal "Unable to connect to the server")
    = ErrWrap msg inner
    ∧ msg ∈ execMessages.
Proof.
  apply (Exec_error_names_its_step
           (Scenario.world Scenario.state_found Scenario.unreachable
              Scenario.schema_present)
           Scenario.path_Join Scenario.phase
           (ErrWrap "cluster is unreachable, make sure you have access to the cluster"
              (ErrExternal "Unable to connect to the server"))).
  reflexivity.
Defined.

Lemma NewPreFlight_terraform_directory_witness :
  "/work/preflight/terraform" = "/work/preflight/terraform"
  ∧ "furyctl.yaml" = ConfigPath Examples.creator_paths
  ∧ "kube" = "kube"
  ∧ mkdirTemp Examples.base = inr "/tmp/furyctl-kube-configs-1".
Proof.
  apply (NewPreFlight_terraform_directory Examples.base "preflight" Scenario.path_Join
           Examples.newOperationPhase tt Examples.creator_paths false ""
           (mkBuilt
              (mkOperationPhase "/work/preflight" "/work/bin/terraform"
                 "/work/preflight/terraform/plan" "/work/preflight/terraform/logs"
                 "/work/preflight/terraform/outputs" "/work/bin/kubectl")
              (mkPreFlight "/work/preflight" "/distro" "furyctl.yaml" "" false)
              (mkTerraformPaths "/work/preflight/terraform/logs"
                 "/work/preflight/terraform/outputs" "/work/preflight/terraform"
                 "/work/preflight/terraform/plan" "/work/bin/terraform")
              (mkKubectlPaths "/work/bin/kubectl" "/work/preflight" "/work/kubeconfig")
              (true, true, false))
           "kube" "/tmp/furyctl-kube-configs-1" "/work/preflight/terraform"
           "furyctl.yaml").
  - reflexivity.
  - vm_compute. set_solver.
Defined.

End PreFlightStepsFacts.

(** * More of the configuration parser *)

Module ParseStepsFacts.
Import Configuration ParseSteps.

#[local] Set Warnings "-clear-no-such-hyp".

Ltac unfold_run :=
  unfold trace, outcome, mbind, mret, Run_bind, Run_ret, bind, ret, call,
    emit, fail, panic.

Section ParseStepFacts.
Context {AWSSimple Dummy AWS : Type}.
Variable w : @World AWSSimple Dummy AWS.
Variable path : string.

Lemma isString_true x s : isString x s = true ↔ x = NStr s.
Proof.
  destruct x; simpl; try (split; [done|by intros [=]]).
  rewrite String.eqb_eq. split; [by intros ->|by intros [= ->]].
Qed.

(** Walks through [Parse] one step at a time; [tac] closes each branch. *)
Ltac parse_steps tac :=
  unfold Parse, logged; unfold_run;
  destruct (readFile w path) as [?|content] eqn:Hread; simpl; [tac|];
  destruct (unmarshalConfiguration w content) as [?|base] eqn:Hdecode; simpl; [tac|];
  destruct (String.eqb_spec (Kind base) "Cluster") as [HkC|HkC];
  [ unfold clusterParser, assertMap, assertString, logged; unfold_run;
    destruct (Spec base) as [[| | | | |m]| | |] eqn:Hspec; simpl;
    [tac|tac|tac|tac|tac| |tac|tac|tac];
    destruct (marshal w (SpecRaw (NMap m))) as [?|bytes] eqn:Hmarshal; simpl; [tac|];
    destruct (isString (mapIndex m "provisioner") "aws-simple") eqn:Hprov; simpl;
    [|apply not_true_iff_false in Hprov; rewrite isString_true in Hprov; tac];
    apply isString_true in Hprov; rewrite Hprov; simpl;
    destruct (unmarshalAWSSimple w bytes) as [?|spec] eqn:Htyped; simpl; tac
  | destruct (String.eqb_spec (Kind base) "Bootstrap") as [HkB|HkB]; [|tac];
    unfold bootstrapParser, assertMap, assertString, logged; unfold_run;
    destruct (Spec base) as [[| | | | |m]| | |] eqn:Hspec; simpl;
    [tac|tac|tac|tac|tac| |tac|tac|tac];
    destruct (marshal w (SpecRaw (NMap m))) as [?|bytes] eqn:Hmarshal; simpl; [tac|];
    destruct (isString (mapIndex m "provisioner") "dummy") eqn:Hdummy; simpl;
    [ apply isString_true in Hdummy; rewrite Hdummy; simpl;
      destruct (unmarshalDummy w bytes) as [?|spec] eqn:Htyped; simpl; tac
    | apply not_true_iff_false in Hdummy; rewrite isString_true in Hdummy;
      destruct (isString (mapIndex m "provisioner") "aws") eqn:Haws; simpl;
      [ apply isString_true in Haws; rewrite Haws; simpl;
        destruct (unmarshalAWS w bytes) as [?|spec] eqn:Htyped; simpl; tac
      | apply not_true_iff_false in Haws; rewrite isString_true in Haws; tac ] ] ].

(** X11.  A configuration returned by [Parse] is of kind "Cluster" with
    provisioner "aws-simple" and a typed AWSSimple spec, or of kind
    "Bootstrap" with provisioner "dummy" or "aws" and the typed spec of
    that provisioner: the raw spec never comes back. *)
Theorem Parse_returns_typed_spec c :
  outcome (Parse w path) = Ret c →
  (Kind c = "Cluster" ∧ Provisioner c = "aws-simple" ∧ ∃ s, Spec c = SpecAWSSimple s)
  ∨ (Kind c = "Bootstrap" ∧ Provisioner c = "dummy" ∧ ∃ s, Spec c = SpecDummy s)
  ∨ (Kind c = "Bootstrap" ∧ Provisioner c = "aws" ∧ ∃ s, Spec c = SpecAWS s).
Proof. parse_steps ltac:(naive_solver). Qed.

(** X12.  [Parse] changes nothing but [Spec] and [Provisioner]: kind,
    metadata and executor are those of the decoded file, and the typed spec
    is what the raw spec decodes to after being marshalled again. *)
Theorem Parse_keeps_the_document c :
  outcome (Parse w path) = Ret c →
  ∃ content base bytes,
    readFile w path = inr content ∧ unmarshalConfiguration w content = inr base
    ∧ marshal w (Spec base) = inr bytes
    ∧ Kind c = Kind base ∧ Meta c = Meta base ∧ Executor c = Executor base
    ∧ match Spec c with
      | SpecAWSSimple s => unmarshalAWSSimple w bytes = inr s
      | SpecDummy s => unmarshalDummy w bytes = inr s
      | SpecAWS s => unmarshalAWS w bytes = inr s
      | SpecRaw _ => False
      end.
Proof.
  parse_steps ltac:(try done; intros [= <-]; exists content, base, bytes;
                    rewrite Hspec; simpl; done).
Qed.

(** X13.  [Parse] panics only on the type assertion of the spec: it
    panics exactly when the file is read and decoded, the kind is "Cluster"
    or "Bootstrap", and the spec is not a mapping.  With a mapping for a
    spec the later assertion [provisioner.(string)] never panics. *)
Theorem Parse_panics_iff :
  (∃ msg, outcome (Parse w path) = Panic msg)
  ↔ ∃ content base,
      readFile w path = inr content ∧ unmarshalConfiguration w content = inr base
      ∧ (Kind base = "Cluster" ∨ Kind base = "Bootstrap")
      ∧ ∀ m, Spec base ≠ SpecRaw (NMap m).
Proof.
  parse_steps ltac:(split;
    [ intros [msg Hmsg];
      first
        [ done
        | match goal with
          | Hr : readFile _ _ = inr ?c, Hd : unmarshalConfiguration _ _ = inr ?b |- _ =>
              exists c, b; repeat split; auto; intros ? ?; congruence
          end ]
    | intros (content' & base' & Hr & Hd & Hk & Hs);
      first
        [ congruence
        | destruct Hk; congruence
        | match goal with
          | Hm : Spec _ = SpecRaw (NMap ?mm) |- _ => destruct (Hs mm); congruence
          end
        | eexists; reflexivity ] ]).
Qed.

(** X14.  [Parse] never returns an error silently: when it returns one,
    the last thing it did was to log at Error level; and when it returns a
    configuration or panics, it has logged nothing at Error level. *)
Theorem Parse_logs_its_errors :
  (∀ e, outcome (Parse w path) = Fail e →
        ∃ format args, last (trace (Parse w path)) = Some (Logf Error format args))
  ∧ ((∀ e, outcome (Parse w path) ≠ Fail e) →
     Forall (λ ev, isErrorLog ev = false) (trace (Parse w path))).
Proof.
  parse_steps ltac:(split;
    [ intros e' He'; try done; by eexists _, _
    | intros Hno; first [ by repeat constructor | by edestruct Hno ] ]).
Qed.

(** X18.  An error returned by [Parse] is the error of the step that
    failed, passed on as it is (reading, decoding, marshalling the spec,
    decoding the typed spec), or one of three errors of its own: no
    provisioner of that name for a cluster, none for a bootstrap, no parser
    for the kind. *)
Theorem Parse_error_origin e :
  outcome (Parse w path) = Fail e →
  readFile w path = inl e
  ∨ (∃ content, unmarshalConfiguration w content = inl e)
  ∨ (∃ spec, marshal w spec = inl e)
  ∨ (∃ bytes, unmarshalAWSSimple w bytes = inl e ∨ unmarshalDummy w bytes = inl e
              ∨ unmarshalAWS w bytes = inl e)
  ∨ e = ErrNew "Cluster provisioner not found"
  ∨ e = ErrNew "Bootstrap provisioner not found"
  ∨ ∃ kind, kind ≠ "Cluster" ∧ kind ≠ "Bootstrap"
            ∧ e = ErrNew ("Parser not found for " +:+ kind +:+ " kind").
Proof. parse_steps ltac:(naive_solver). Qed.

Lemma isString_false x s : x ≠ NStr s → isString x s = false.
Proof. intros Hx. apply not_true_iff_false. by rewrite isString_true. Qed.

(** X15.  With a mapping for a spec that marshals, a cluster whose
    provisioner is not the string "aws-simple", and a bootstrap whose
    provisioner is neither "dummy" nor "aws", are refused with "<Kind>
    provisioner not found", before any typed spec is decoded.  A spec with
    no provisioner key is such a case, and so is a provisioner of the other
    kind. *)
Theorem Parse_unknown_provisioner content base m bytes :
  readFile w path = inr content →
  unmarshalConfiguration w content = inr base →
  Spec base = SpecRaw (NMap m) →
  marshal w (Spec base) = inr bytes →
  (Kind base = "Cluster" ∧ mapIndex m "provisioner" ≠ NStr "aws-simple")
  ∨ (Kind base = "Bootstrap" ∧ mapIndex m "provisioner" ≠ NStr "dummy"
     ∧ mapIndex m "provisioner" ≠ NStr "aws") →
  Parse w path
  = ([ReadFile path; Unmarshal content;
      Logf Debug "provisioner: %v" [ArgNode (mapIndex m "provisioner")];
      Marshal (Spec base);
      Logf Error "Error parsing the configuration file. Provisioner not found" []],
     Fail (ErrNew (Kind base +:+ " provisioner not found"))).
Proof.
  intros Hread Hdecode Hspec Hmarshal Hkind.
  unfold Parse, logged. unfold_run. rewrite Hread. simpl. rewrite Hdecode. simpl.
  destruct Hkind as [[Hk Hp]|(Hk & Hp1 & Hp2)]; rewrite Hk; simpl.
  - unfold clusterParser, assertMap, logged. unfold_run.
    rewrite Hmarshal, Hspec. simpl. by rewrite (isString_false _ _ Hp).
  - unfold bootstrapParser, assertMap, logged. unfold_run.
    rewrite Hmarshal, Hspec. simpl.
    by rewrite (isString_false _ _ Hp1), (isString_false _ _ Hp2).
Qed.

(** X16.  Both parsers marshal the spec before they look at the
    provisioner: a spec that cannot be marshalled gives the marshal error,
    whatever the provisioner is, known or not. *)
Theorem Parse_marshal_error_first content base m e :
  readFile w path = inr content →
  unmarshalConfiguration w content = inr base →
  Kind base = "Cluster" ∨ Kind base = "Bootstrap" →
  Spec base = SpecRaw (NMap m) →
  marshal w (Spec base) = inl e →
  Parse w path
  = ([ReadFile path; Unmarshal content;
      Logf Debug "provisioner: %v" [ArgNode (mapIndex m "provisioner")];
      Marshal (Spec base);
      Logf Error "error parsing configuration file: %v" [ArgError e]],
     Fail e).
Proof.
  intros Hread Hdecode Hkind Hspec Hmarshal.
  unfold Parse, logged. unfold_run. rewrite Hread. simpl. rewrite Hdecode. simpl.
  destruct Hkind as [Hk|Hk]; rewrite Hk; simpl.
  - unfold clusterParser, assertMap, logged. unfold_run.
    by rewrite Hmarshal, Hspec.
  - unfold bootstrapParser, assertMap, logged. unfold_run.
    by rewrite Hmarshal, Hspec.
Qed.

(** X17.  A kind other than "Cluster" and "Bootstrap" is refused before
    the spec is touched: whatever the spec is, absent included, [Parse]
    returns "Parser not found for <kind> kind", does not panic and
    marshals nothing. *)
Theorem Parse_refuses_unknown_kind content base :
  readFile w path = inr content →
  unmarshalConfiguration w content = inr base →
  Kind base ≠ "Cluster" →
  Kind base ≠ "Bootstrap" →
  Parse w path
  = ([ReadFile path; Unmarshal content;
      Logf Error "Error parsing the configuration file. Parser not found for %v kind"
        [ArgString (Kind base)]],
     Fail (ErrNew ("Parser not found for " +:+ Kind base +:+ " kind"))).
Proof.
  intros Hread Hdecode HkC HkB.
  unfold Parse, logged. unfold_run. rewrite Hread. simpl. rewrite Hdecode. simpl.
  apply String.eqb_neq in HkC, HkB. by rewrite HkC, HkB.
Qed.

End ParseStepFacts.

(** *** The parser at work *)

Lemma Parse_returns_typed_spec_witness :
  (Kind (withSpec (Scenario.with_provisioner "Cluster" "aws-simple") "aws-simple"
           (SpecAWSSimple tt)) = "Cluster"
   ∧ Provisioner (withSpec (Scenario.with_provisioner "Cluster" "aws-simple")
                    "aws-simple" (SpecAWSSimple tt)) = "aws-simple"
   ∧ ∃ s, Spec (withSpec (Scenario.with_provisioner "Cluster" "aws-simple")
                  "aws-simple" (SpecAWSSimple tt)) = SpecAWSSimple s)
  ∨ (Kind (withSpec (Scenario.with_provisioner "Cluster" "aws-simple") "aws-simple"
             (SpecAWSSimple tt)) = "Bootstrap"
     ∧ Provisioner (withSpec (Scenario.with_provisioner "Cluster" "aws-simple")
                      "aws-simple" (SpecAWSSimple tt)) = "dummy"
     ∧ ∃ s, Spec (withSpec (Scenario.with_provisioner "Cluster" "aws-simple")
                    "aws-simple" (SpecAWSSimple tt)) = SpecDummy s)
  ∨ (Kind (withSpec (Scenario.with_provisioner "Cluster" "aws-simple") "aws-simple"
             (SpecAWSSimple tt)) = "Bootstrap"
     ∧ Provisioner (withSpec (Scenario.with_provisioner "Cluster" "aws-simple")
                      "aws-simple" (SpecAWSSimple tt)) = "aws"
     ∧ ∃ s, Spec (withSpec (Scenario.with_provisioner "Cluster" "aws-simple")
                    "aws-simple" (SpecAWSSimple tt)) = SpecAWS s).
Proof.
  apply (Parse_returns_typed_spec
           (Scenario.config_world_of (Scenario.with_provisioner "Cluster" "aws-simple"))
           "furyctl.yaml").
  reflexivity.
Defined.

Lemma Parse_keeps_the_document_witness :
  ∃ content base bytes,
    readFile (Scenario.config_world_of (Scenario.with_provisioner "Bootstrap" "aws"))
      "furyctl.yaml" = inr content
    ∧ unmarshalConfiguration
        (Scenario.config_world_of (Scenario.with_provisioner "Bootstrap" "aws"))
        content = inr base
    ∧ marshal (Scenario.config_world_of (Scenario.with_provisioner "Bootstrap" "aws"))
        (Spec base) = inr bytes
    ∧ Kind (withSpec (Scenario.with_provisioner "Bootstrap" "aws") "aws" (SpecAWS tt))
      = Kind base
    ∧ Meta (withSpec (Scenario.with_provisioner "Bootstrap" "aws") "aws" (SpecAWS tt))
      = Meta base
    ∧ Executor (withSpec (Scenario.with_provisioner "Bootstrap" "aws") "aws" (SpecAWS tt))
      = Executor base
    ∧ unmarshalAWS (Scenario.config_world_of (Scenario.with_provisioner "Bootstrap" "aws"))
        bytes = inr tt.
Proof.
  apply (Parse_keeps_the_document
           (Scenario.config_world_of (Scenario.with_provisioner "Bootstrap" "aws"))
           "furyctl.yaml"
           (withSpec (Scenario.with_provisioner "Bootstrap" "aws") "aws" (SpecAWS tt))).
  reflexivity.
Defined.

Lemma Parse_error_origin_witness :
  ∃ kind, kind ≠ "Cluster" ∧ kind ≠ "Bootstrap"
          ∧ ErrNew "Parser not found for Deployment kind"
            = ErrNew ("Parser not found for " +:+ kind +:+ " kind").
Proof.
  destruct (Parse_error_origin
              (Scenario.config_world_of Examples.deployment_without_spec)
              "furyctl.yaml" (ErrNew "Parser not found for Deployment kind") eq_refl)
    as [H|[[? H]|[[? H]|[[? [H|[H|H]]]|[H|[H|H]]]]]]; try discriminate H.
  exact H.
Defined.

Lemma Parse_unknown_provisioner_witness :
  Parse (Scenario.config_world_of (Examples.without_provisioner "Cluster"))
    "furyctl.yaml"
  = ([ReadFile "furyctl.yaml"; Unmarshal "furyctl.yaml contents";
      Logf Debug "provisioner: %v" [ArgNode NNil];
      Marshal (Spec (Examples.without_provisioner "Cluster"));
      Logf Error "Error parsing the configuration file. Provisioner not found" []],
     Fail (ErrNew "Cluster provisioner not found")).
Proof.
  apply (Parse_unknown_provisioner
           (Scenario.config_world_of (Examples.without_provisioner "Cluster"))
           "furyctl.yaml" "furyctl.yaml contents"
           (Examples.without_provisioner "Cluster")
           [(NStr "region", NStr "eu-west-1")] "provisioner: ...").
  - reflexivity.
  - reflexivity.
  - reflexivity.
  - reflexivity.
  - left. split; [reflexivity|discriminate].
Defined.

Lemma Parse_marshal_error_first_witness :
  Parse (Examples.marshal_error_world (Scenario.with_provisioner "Bootstrap" "gcp"))
    "furyctl.yaml"
  = ([ReadFile "furyctl.yaml"; Unmarshal "furyctl.yaml contents";
      Logf Debug "provisioner: %v" [ArgNode (NStr "gcp")];
      Marshal (Spec (Scenario.with_provisioner "Bootstrap" "gcp"));
      Logf Error "error parsing configuration file: %v"
        [ArgError (ErrExternal "yaml: cannot marshal")]],
     Fail (ErrExternal "yaml: cannot marshal")).
Proof.
  apply (Parse_marshal_error_first
           (Examples.marshal_error_world (Scenario.with_provisioner "Bootstrap" "gcp"))
           "furyctl.yaml" "furyctl.yaml contents"
           (Scenario.with_provisioner "Bootstrap" "gcp")
           [(NStr "provisioner", NStr "gcp")] (ErrExternal "yaml: cannot marshal")).
  - reflexivity.
  - reflexivity.
  - right. reflexivity.
  - reflexivity.
  - reflexivity.
Defined.

Lemma Parse_refuses_unknown_kind_witness :
  Parse (Scenario.config_world_of Examples.deployment_without_spec) "furyctl.yaml"
  = ([ReadFile "furyctl.yaml"; Unmarshal "furyctl.yaml contents";
      Logf Error "Error parsing the configuration file. Parser not found for %v kind"
        [ArgString "Deployment"]],
     Fail (ErrNew "Parser not found for Deployment kind")).
Proof.
  apply (Parse_refuses_unknown_kind
           (Scenario.config_world_of Examples.deployment_without_spec)
           "furyctl.yaml" "furyctl.yaml contents" Examples.deployment_without_spec).
  - reflexivity.
  - reflexivity.
  - discriminate.
  - discriminate.
Defined.

End ParseStepsFacts.

(** * The bootstrap commands *)

Module CmdFacts.
Import Cmd.

#[local] Set Warnings "-clear-no-such-hyp".

Ltac unfold_run :=
  unfold trace, outcome, mbind, mret, Run_bind, Run_ret, bind, ret, call,
    emit, fail, logged.

Section CommandFacts.
Context {AWSSimple Dummy AWS Bootstrap Spinner : Type}.
Variable w : @World AWSSimple Dummy AWS Bootstrap Spinner.
Variable s : Spinner.
Variable f : Flags.

(** X21.  When [bPre] returns nil, the configuration in [cfg] is the file
    of the [--config] flag parsed as kind "Bootstrap", the project lies at
    "<current directory>/<workdir>", and the bootstrap in [boot] was made
    for that project and that configuration, with terraform set to work in
    the project directory with the [--token] flag. *)
Theorem bPre_session g :
  outcome (bPre w s f) = Ret g →
  ∃ wd,
    parseConfig w (bConfigFilePath f) "Bootstrap" = inr (cfg g)
    ∧ getwd w = inr wd
    ∧ ProjectPath (prj g) = wd +:+ "/" +:+ bWorkingDir f
    ∧ bootstrapNew w
        (mkOptions s (prj g) (cfg g)
           (mkTerraformOptions (bGitHubToken f) (ProjectPath (prj g)) (debug f)))
      = inr (boot g).
Proof.
  unfold bPre. unfold_run.
  destruct (parseConfig w _ _) as [e|c] eqn:Hparse; simpl; [done|].
  destruct (getwd w) as [e|wd] eqn:Hwd; simpl; [done|].
  destruct (bootstrapNew w _) as [e|b] eqn:Hnew; simpl; [done|].
  intros [= <-]. by exists wd.
Qed.

Section Session.
Variable g : @Session AWSSimple Dummy AWS Bootstrap.

(** Walks through the three [RunE]; [tac] closes each branch. *)
Ltac run_steps tac :=
  unfold bootstrapInitRunE, bootstrapUpdateRunE, bootstrapDestroyRunE;
  unfold_run;
  destruct (projectCheck w (prj g)) as [?|[]] eqn:Hcheck; simpl;
  destruct (bootInit w (boot g)) as [?|[]] eqn:Hinit; simpl;
  destruct (bootUpdate w (boot g) (bDryRun f)) as [?|[]] eqn:Hupdate; simpl;
  destruct (bootDestroy w (boot g)) as [?|[]] eqn:Hdestroy; simpl;
  tac.

(** X19.  [bootstrap init] acts on the project exactly when [prj.Check]
    fails, that is when there is no project yet; [bootstrap update] and
    [bootstrap destroy] act exactly when [prj.Check] succeeds.  So for one
    state of the project, init initialises it exactly when update and
    destroy refuse to touch it. *)
Theorem commands_guard :
  (BootInit (boot g) ∈ trace (bootstrapInitRunE w f g)
   ↔ ∃ e, projectCheck w (prj g) = inl e)
  ∧ (BootUpdate (boot g) (bDryRun f) ∈ trace (bootstrapUpdateRunE w f g)
     ↔ projectCheck w (prj g) = inr tt)
  ∧ (BootDestroy (boot g) ∈ trace (bootstrapDestroyRunE w f g)
     ↔ projectCheck w (prj g) = inr tt)
  ∧ (Exists (λ ev, isAction ev = true) (trace (bootstrapInitRunE w f g))
     ↔ ¬ Exists (λ ev, isAction ev = true) (trace (bootstrapUpdateRunE w f g)))
  ∧ (Exists (λ ev, isAction ev = true) (trace (bootstrapInitRunE w f g))
     ↔ ¬ Exists (λ ev, isAction ev = true) (trace (bootstrapDestroyRunE w f g))).
Proof.
  run_steps ltac:(rewrite ?Exists_cons, ?Exists_nil; simpl;
                  set_unfold; naive_solver).
Qed.

(** X20.  Each of the three commands reports to analytics once when it
    has acted on the project and not at all when it has not; the success
    flag it reports is true exactly when the command returns nil. *)
Theorem commands_track_their_outcome runE :
  runE ∈ [bootstrapInitRunE w; bootstrapUpdateRunE w; bootstrapDestroyRunE w] →
  length (List.filter isTracking (trace (runE f g)))
  = length (List.filter isAction (trace (runE f g)))
  ∧ (∀ ev ok, ev ∈ trace (runE f g) → tracked ev = Some ok →
              (ok = true ↔ outcome (runE f g) = Ret tt))
  ∧ (outcome (runE f g) = Ret tt →
     ∃ ev, ev ∈ trace (runE f g) ∧ tracked ev = Some true).
Proof.
  intros Hin. set_unfold in Hin. destruct Hin as [->|[->|[->|[]]]];
    run_steps ltac:(split; [reflexivity|split;
      [ intros ev ok Hev; set_unfold in Hev; naive_solver
      | intros Hok;
        first
          [ done
          | match goal with
            | |- ∃ ev, ev ∈ [_; _; ?x] ∧ _ =>
                exists x; split; [set_solver|reflexivity]
            end ] ]]).
Qed.

End Session.

(** X22.  Run by cobra, [bootstrap init] returns nil exactly when [bPre]
    returns nil, the project does not exist yet and [boot.Init] succeeds;
    [bootstrap update] and [bootstrap destroy] return nil exactly when
    [bPre] returns nil, the project exists and the action succeeds. *)
Theorem execute_succeeds_iff :
  (outcome (execute w s f (bootstrapInitRunE w)) = Ret tt
   ↔ ∃ g, outcome (bPre w s f) = Ret g ∧ (∃ e, projectCheck w (prj g) = inl e)
          ∧ bootInit w (boot g) = inr tt)
  ∧ (outcome (execute w s f (bootstrapUpdateRunE w)) = Ret tt
     ↔ ∃ g, outcome (bPre w s f) = Ret g ∧ projectCheck w (prj g) = inr tt
            ∧ bootUpdate w (boot g) (bDryRun f) = inr tt)
  ∧ (outcome (execute w s f (bootstrapDestroyRunE w)) = Ret tt
     ↔ ∃ g, outcome (bPre w s f) = Ret g ∧ projectCheck w (prj g) = inr tt
            ∧ bootDestroy w (boot g) = inr tt).
Proof.
  unfold execute.
  destruct (bPre w s f) as [t [g|e|m]]; unfold_run; simpl;
    [|by split_and!; (split; [|intros (g & Hg & _)])..].
  unfold bootstrapInitRunE, bootstrapUpdateRunE, bootstrapDestroyRunE. unfold_run.
  destruct (projectCheck w (prj g)) as [?|[]] eqn:Hcheck; simpl;
    destruct (bootInit w (boot g)) as [?|[]] eqn:Hinit; simpl;
    destruct (bootUpdate w (boot g) (bDryRun f)) as [?|[]] eqn:Hupdate; simpl;
    destruct (bootDestroy w (boot g)) as [?|[]] eqn:Hdestroy; simpl;
    split_and!;
    (split;
       [ intros Hok; first [ done | exists g; eauto ]
       | intros (g' & [= <-] & Hc & Ha);
         first [ done | congruence | destruct Hc as [? ?]; congruence ] ]).
Qed.

End CommandFacts.

(** *** The commands at work *)

Lemma bPre_session_witness :
  ∃ wd,
    parseConfig (Examples.cmd_world (inr tt) (inr tt)) "bootstrap.yml" "Bootstrap"
    = inr (cfg Examples.session)
    ∧ getwd (Examples.cmd_world (inr tt) (inr tt)) = inr wd
    ∧ ProjectPath (prj Examples.session) = wd +:+ "/" +:+ "./bootstrap"
    ∧ bootstrapNew (Examples.cmd_world (inr tt) (inr tt))
        (mkOptions tt (prj Examples.session) (cfg Examples.session)
           (mkTerraformOptions "" (ProjectPath (prj Examples.session)) false))
      = inr (boot Examples.session).
Proof.
  apply (bPre_session (Examples.cmd_world (inr tt) (inr tt)) tt Examples.flags
           Examples.session).
  reflexivity.
Defined.

Lemma commands_track_their_outcome_witness :
  length (List.filter isTracking
            (trace (bootstrapUpdateRunE
                      (Examples.cmd_world (inr tt) (inl (ErrExternal "apply failed")))
                      Examples.flags Examples.session)))
  = length (List.filter isAction
              (trace (bootstrapUpdateRunE
                        (Examples.cmd_world (inr tt) (inl (ErrExternal "apply failed")))
                        Examples.flags Examples.session)))
  ∧ (∀ ev ok,
       ev ∈ trace (bootstrapUpdateRunE
                     (Examples.cmd_world (inr tt) (inl (ErrExternal "apply failed")))
                     Examples.flags Examples.session) →
       tracked ev = Some ok →
       (ok = true
        ↔ outcome (bootstrapUpdateRunE
                     (Examples.cmd_world (inr tt) (inl (ErrExternal "apply failed")))
                     Examples.flags Examples.session) = Ret tt))
  ∧ (outcome (bootstrapUpdateRunE
                (Examples.cmd_world (inr tt) (inl (ErrExternal "apply failed")))
                Examples.flags Examples.session) = Ret tt →
     ∃ ev,
       ev ∈ trace (bootstrapUpdateRunE
                     (Examples.cmd_world (inr tt) (inl (ErrExternal "apply failed")))
                     Examples.flags Examples.session)
       ∧ tracked ev = Some true).
Proof.
  apply (commands_track_their_outcome
           (Examples.cmd_world (inr tt) (inl (ErrExternal "apply failed")))
           Examples.flags Examples.session
           (bootstrapUpdateRunE
              (Examples.cmd_world (inr tt) (inl (ErrExternal "apply failed"))))).
  right. left.
Defined.

Example bootstrap_init_existing_project :
  execute (Examples.cmd_world (inr tt) (inr tt)) tt Examples.flags
    (bootstrapInitRunE (Examples.cmd_world (inr tt) (inr tt)))
  = ([SignalNotify; HandleStopSignal "bootstrap";
      Log Debug "passing pre-flight checks" [];
      ParseConfig "bootstrap.yml" "Bootstrap"; Getwd;
      Log Debug "pre-flight checks ok!" [];
      BootstrapNew
        (mkOptions tt (mkProject "/home/user/./bootstrap")
           (Scenario.with_provisioner "Bootstrap" "aws")
           (mkTerraformOptions "" "/home/user/./bootstrap" false));
      ProjectCheck (mkProject "/home/user/./bootstrap")],
     Fail (ErrNew "the project ./bootstrap seems to be already created. Choose another working directory")).
Proof. reflexivity. Qed.

Example bootstrap_destroy_missing_project :
  outcome (bootstrapDestroyRunE
             (Examples.cmd_world (inl (ErrExternal "missing")) (inr tt))
             Examples.flags Examples.session)
  = Fail (ErrNew "the project ./bootstrap has to be created. Execute bootstrap init before cluster destroy. stat: no such file or directory").
Proof. reflexivity. Qed.

End CmdFacts.
